(** * MiniMax-M2 interleaved-thinking demo: lookup tools and conversation loop

    A shallow embedding of [tools.py] and [demo_runner.py].

    - Python [str] values are Rocq [string]s: a character is a code point
      below 256, and the character classes used by [str.lower],
      [str.strip] and [str.splitlines] are the ones Python has on that
      range.
    - The three markdown documents that the tools read from disk are
      parameters (the text returned by [read_text]).
    - A Python exception is a value of [exn]; a function that may raise
      returns a [result].
    - [json.dumps] is written out for the values the tools serialise;
      [json.loads], the process environment and the completion endpoint
      are external and are parameters of the conversation loop.
    - The transcript file is the list of the records appended to it.
      Console output is not modelled. *)

From Stdlib Require Import String Ascii List Bool Arith ZArith Lia Sorted.
From Stdlib Require Import DecimalString.
From Stdlib Require Import Floats.SpecFloat.
Import ListNotations.
Open Scope string_scope.
Open Scope nat_scope.

(** ** Exceptions *)

Inductive exn : Type :=
| ValueError        (* unpacking an empty list, tools.py line 76 *)
| TypeError         (* a handler called with the wrong keyword arguments *)
| AttributeError    (* [.lower()] / [.strip()] on a value that is not a str *)
| JSONDecodeError   (* [json.loads] on malformed text *)
| RuntimeError (msg : string)   (* demo_runner.py line 255 *)
| OverflowError     (* int too large to convert to float *)
| EndpointError.    (* anything raised while obtaining [choices[0]] *)

Inductive result (A : Type) : Type :=
| Ok (a : A)
| Raise (e : exn).
Arguments Ok {A} a.
Arguments Raise {A} e.

(** ** Python strings *)

Module Py.

Definition code (c : ascii) : nat := nat_of_ascii c.

Definition LF : ascii := ascii_of_nat 10.
Definition CR : ascii := ascii_of_nat 13.
Definition dquote : ascii := ascii_of_nat 34.
Definition squote : ascii := ascii_of_nat 39.
Definition backslash : ascii := ascii_of_nat 92.

(** [str.isspace] on one character. *)
Definition isspace (c : ascii) : bool :=
  let n := code c in
  ((9 <=? n) && (n <=? 13)) || ((28 <=? n) && (n <=? 32))
  || (n =? 133) || (n =? 160).

(** The line boundaries of [str.splitlines]. *)
Definition is_linebreak (c : ascii) : bool :=
  let n := code c in
  ((10 <=? n) && (n <=? 13)) || ((28 <=? n) && (n <=? 30)) || (n =? 133).

Definition lower_char (c : ascii) : ascii :=
  let n := code c in
  if ((65 <=? n) && (n <=? 90))
     || ((192 <=? n) && (n <=? 222) && negb (n =? 215))
  then ascii_of_nat (n + 32) else c.

(** [s.lower()] *)
Fixpoint lower (s : string) : string :=
  match s with
  | EmptyString => EmptyString
  | String c r => String (lower_char c) (lower r)
  end.

Fixpoint lstrip (s : string) : string :=
  match s with
  | EmptyString => EmptyString
  | String c r => if isspace c then lstrip r else s
  end.

Fixpoint rstrip (s : string) : string :=
  match s with
  | EmptyString => EmptyString
  | String c r =>
      match rstrip r with
      | EmptyString => if isspace c then EmptyString else String c EmptyString
      | r' => String c r'
      end
  end.

(** [s.strip()] *)
Definition strip (s : string) : string := rstrip (lstrip s).

(** [s.startswith(p)] *)
Definition startswith (s p : string) : bool := String.prefix p s.

(** [sub in s] *)
Fixpoint contains (sub s : string) : bool :=
  String.prefix sub s
  || match s with
     | EmptyString => false
     | String _ r => contains sub r
     end.

(** [s[:n]] *)
Fixpoint take (n : nat) (s : string) : string :=
  match n, s with
  | S k, String c r => String c (take k r)
  | _, _ => EmptyString
  end.

(** [s[n:]] *)
Fixpoint drop (n : nat) (s : string) : string :=
  match n, s with
  | S k, String _ r => drop k r
  | _, _ => s
  end.

(** [sep.join(parts)] *)
Definition join (sep : string) (parts : list string) : string :=
  String.concat sep parts.

(** [s.splitlines()]: a line ends at a boundary character, CR LF counts
    as one boundary, and text after the last boundary is a line only when
    it is not empty. *)
Fixpoint splitlines (s : string) : list string :=
  match s with
  | EmptyString => []
  | String c r =>
      if is_linebreak c then
        EmptyString ::
        splitlines
          (match r with
           | String c2 r2 =>
               if (code c =? 13) && (code c2 =? 10) then r2 else r
           | EmptyString => r
           end)
      else
        match splitlines r with
        | [] => [String c EmptyString]
        | l :: ls => String c l :: ls
        end
  end.

(** [s.split(sep)] for a separator that is not empty: the pieces between
    the occurrences of [sep], found from the left without overlap.  The
    first component is the piece that starts at the current position,
    [skip] counts the characters of a separator still to be passed. *)
Fixpoint split_from (sep : string) (skip : nat) (s : string)
  : string * list string :=
  match s with
  | EmptyString => (EmptyString, [])
  | String c r =>
      match skip with
      | S k => split_from sep k r
      | O =>
          if String.prefix sep s then
            let (p, ps) := split_from sep (String.length sep - 1) r in
            (EmptyString, p :: ps)
          else
            let (p, ps) := split_from sep 0 r in
            (String c p, ps)
      end
  end.

Definition split (sep s : string) : list string :=
  let (p, ps) := split_from sep 0 s in p :: ps.

(** Two lower-case hexadecimal digits. *)
Definition hex_digit (n : nat) : ascii :=
  if n <? 10 then ascii_of_nat (48 + n) else ascii_of_nat (87 + n).

Definition hex2 (n : nat) : string :=
  String (hex_digit (n / 16)) (String (hex_digit (n mod 16)) EmptyString).

Fixpoint has_char (q : ascii) (s : string) : bool :=
  match s with
  | EmptyString => false
  | String c r => Ascii.eqb c q || has_char q r
  end.

(** Printable characters, as [repr] sees them. *)
Definition isprintable (c : ascii) : bool :=
  let n := code c in
  ((32 <=? n) && (n <=? 126))
  || ((161 <=? n) && negb (n =? 173)).

Definition repr_char (quote c : ascii) : string :=
  let n := code c in
  if Ascii.eqb c quote || Ascii.eqb c backslash
  then String backslash (String c EmptyString)
  else if n =? 9 then "\t"
  else if n =? 10 then "\n"
  else if n =? 13 then "\r"
  else if isprintable c then String c EmptyString
  else "\x" ++ hex2 n.

Fixpoint repr_body (quote : ascii) (s : string) : string :=
  match s with
  | EmptyString => EmptyString
  | String c r => repr_char quote c ++ repr_body quote r
  end.

(** [repr(s)] for a str: single quotes, unless the text has a single
    quote and no double quote. *)
Definition repr (s : string) : string :=
  let quote :=
    if has_char squote s && negb (has_char dquote s) then dquote else squote in
  String quote (repr_body quote s ++ String quote EmptyString).

(** [repr(l)] / [str(l)] for a list of str. *)
Definition repr_list (l : list string) : string :=
  "[" ++ join ", " (map repr l) ++ "]".

End Py.

(** ** JSON values and [json.dumps] *)

#[warnings="-register-all"]
Inductive json : Type :=
| JNull
| JBool (b : bool)
| JNum (lexeme : string)
| JStr (s : string)
| JArr (items : list json)
| JObj (members : list (string * json)).

Module Json.

Definition hex4 (n : nat) : string :=
  "00" ++ Py.hex2 n.

(** One character of a str under [ensure_ascii=True]. *)
Definition escape_char (c : ascii) : string :=
  let n := Py.code c in
  if n =? 34 then String Py.backslash (String Py.dquote EmptyString)
  else if n =? 92 then "\\"
  else if n =? 8 then "\b"
  else if n =? 12 then "\f"
  else if n =? 10 then "\n"
  else if n =? 13 then "\r"
  else if n =? 9 then "\t"
  else if (32 <=? n) && (n <=? 126) then String c EmptyString
  else "\u" ++ hex4 n.

Fixpoint escape (s : string) : string :=
  match s with
  | EmptyString => EmptyString
  | String c r => escape_char c ++ escape r
  end.

Definition dumps_str (s : string) : string :=
  String Py.dquote (escape s ++ String Py.dquote EmptyString).

(** [json.dumps(v)] with the default separators. *)
Fixpoint dumps (v : json) : string :=
  match v with
  | JNull => "null"
  | JBool true => "true"
  | JBool false => "false"
  | JNum lexeme => lexeme
  | JStr s => dumps_str s
  | JArr items =>
      "[" ++ Py.join ", " (map dumps items) ++ "]"
  | JObj members =>
      "{" ++ Py.join ", "
               (map (fun kv => dumps_str (fst kv) ++ ": " ++ dumps (snd kv))
                    members)
          ++ "}"
  end.

End Json.

(** ** Insertion-ordered dictionaries with str keys *)

Module Dict.

Section Ops.
Context {V : Type}.

Definition t := list (string * V).

(** [d[k] = v]: an existing key keeps its position. *)
Fixpoint set (k : string) (v : V) (d : t) : t :=
  match d with
  | [] => [(k, v)]
  | (k', v') :: r =>
      if String.eqb k' k then (k', v) :: r else (k', v') :: set k v r
  end.

Fixpoint get (k : string) (d : t) : option V :=
  match d with
  | [] => None
  | (k', v') :: r => if String.eqb k' k then Some v' else get k r
  end.

Definition keys (d : t) : list string := map fst d.

End Ops.

(** [d.setdefault(k, []).append(x)] *)
Fixpoint setdefault_append {A : Type} (k : string) (x : A)
  (d : list (string * list A)) : list (string * list A) :=
  match d with
  | [] => [(k, [x])]
  | (k', v') :: r =>
      if String.eqb k' k then (k', (v' ++ [x])%list) :: r
      else (k', v') :: setdefault_append k x r
  end.

End Dict.

(** ** tools.py *)

Definition newline : string := String Py.LF EmptyString.

(** The loop of [_load_markdown_sections] over the lines of the file. *)
Fixpoint collect_sections (lines : list string) (current_key : string)
  (sections : list (string * list string)) : list (string * list string) :=
  match lines with
  | [] => sections
  | line :: rest =>
      if Py.startswith line "## " then
        let current_key := Py.lower (Py.strip (Py.drop 3 line)) in
        collect_sections rest current_key (Dict.set current_key [] sections)
      else
        collect_sections rest current_key
          (Dict.setdefault_append current_key line sections)
  end.

(** The dict comprehension that ends [_load_markdown_sections]. *)
Fixpoint finish_sections (sections : list (string * list string))
  : list (string * string) :=
  match sections with
  | [] => []
  | (key, value) :: rest =>
      match value with
      | [] => finish_sections rest
      | _ :: _ => (key, Py.strip (Py.join newline value)) :: finish_sections rest
      end
  end.

(** [_load_markdown_sections], on the text of the file. *)
Definition _load_markdown_sections (content : string)
  : list (string * string) :=
  let current_key := "introduction" in
  let sections := Dict.set current_key [] [] in
  finish_sections (collect_sections (Py.splitlines content) current_key sections).

(** The [for key, value in data.items()] loop of [get_design_tokens]. *)
Fixpoint design_tokens_loop (normalized : string)
  (items : list (string * string)) : option string :=
  match items with
  | [] => None
  | (key, value) :: rest =>
      if Py.contains normalized key then
        Some (Json.dumps (JObj [("section", JStr key);
                                ("tokens", JStr (Py.take 1200 value))]))
      else design_tokens_loop normalized rest
  end.

Definition design_tokens_not_found (category : string)
  (data : list (string * string)) : string :=
  "No section matched '" ++ category ++ "'. Available: "
  ++ Py.repr_list (Dict.keys data).

Definition get_design_tokens (design_system_md category : string) : string :=
  let data := _load_markdown_sections design_system_md in
  let normalized := Py.lower category in
  match design_tokens_loop normalized data with
  | Some payload => payload
  | None =>
      Json.dumps (JObj [("section", JStr "not_found");
                        ("tokens", JStr (design_tokens_not_found category data))])
  end.

(** The [for block in blocks] loop of [get_component_spec]; unpacking
    [header, *body] from an empty list of lines raises. *)
Fixpoint component_loop (normalized : string) (blocks : list string)
  : result (option string) :=
  match blocks with
  | [] => Ok None
  | block :: rest =>
      match Py.splitlines block with
      | [] => Raise ValueError
      | header :: body =>
          match header with
          | EmptyString => component_loop normalized rest
          | String _ _ =>
              if Py.startswith (Py.lower (Py.strip header)) normalized then
                let snippet := Py.strip (Py.join newline body) in
                Ok (Some (Json.dumps
                            (JObj [("component", JStr (Py.strip header));
                                   ("spec", JStr (Py.take 1600 snippet))])))
              else component_loop normalized rest
          end
      end
  end.

Definition get_component_spec (component_specs_md component : string)
  : result string :=
  let raw := component_specs_md in
  let normalized := Py.lower (Py.strip component) in
  let blocks := Py.split "## " raw in
  match component_loop normalized blocks with
  | Raise e => Raise e
  | Ok (Some payload) => Ok payload
  | Ok None =>
      Ok (Json.dumps
            (JObj [("component", JStr component);
                   ("spec", JStr "Component not found in specs document.")]))
  end.

(** The [for key, value in sections.items()] loop of [get_pattern_guidance]. *)
Fixpoint pattern_loop (normalized : string)
  (items : list (string * string)) : option string :=
  match items with
  | [] => None
  | (key, value) :: rest =>
      if Py.contains normalized key || Py.contains normalized (Py.lower value)
      then
        Some (Json.dumps (JObj [("topic", JStr key);
                                ("guidance", JStr (Py.take 1600 value))]))
      else pattern_loop normalized rest
  end.

Definition get_pattern_guidance (code_patterns_md topic : string) : string :=
  let sections := _load_markdown_sections code_patterns_md in
  let normalized := Py.lower topic in
  match pattern_loop normalized sections with
  | Some payload => payload
  | None =>
      Json.dumps (JObj [("topic", JStr topic);
                        ("guidance", JStr "No matching pattern found.")])
  end.

(** ** demo_runner.py: cost calculator *)

(** A Python [float] is an IEEE 754 binary64 value. *)
Definition float : Type := spec_float.
Definition prec : Z := 53.
Definition emax : Z := 1024.

(** The literals [0.3] and [1.2], rounded to binary64. *)
Definition float_0_3 : float := S754_finite false 5404319552844595 (-54).
Definition float_1_2 : float := S754_finite false 5404319552844595 (-52).

(** Conversion of an [int] operand of a float operation: to nearest,
    ties to even; a magnitude beyond the finite range raises. *)
Definition float_of_int (z : Z) : result float :=
  match binary_normalize prec emax z 0 false with
  | S754_infinity _ => Raise OverflowError
  | f => Ok f
  end.

Definition float_1_000_000 : float := binary_normalize prec emax 1000000 0 false.

Definition COST_PER_INPUT_TOKEN : float := SFdiv prec emax float_0_3 float_1_000_000.
Definition COST_PER_OUTPUT_TOKEN : float := SFdiv prec emax float_1_2 float_1_000_000.

Definition calc_cost (prompt_tokens completion_tokens : Z)
  : result (float * float * float) :=
  match float_of_int prompt_tokens with
  | Raise e => Raise e
  | Ok p =>
      let input_cost := SFmul prec emax p COST_PER_INPUT_TOKEN in
      match float_of_int completion_tokens with
      | Raise e => Raise e
      | Ok c =>
          let output_cost := SFmul prec emax c COST_PER_OUTPUT_TOKEN in
          Ok (input_cost, output_cost, SFadd prec emax input_cost output_cost)
      end
  end.

(** The sign bit of a float; [None] for NaN. *)
Definition sign_bit (f : float) : option bool :=
  match f with
  | S754_zero s | S754_infinity s | S754_finite s _ _ => Some s
  | S754_nan => None
  end.

(** ** demo_runner.py: console helpers and the tool specifications *)

(** [summarize_tool_result(tool, payload, max_chars)]; the source calls
    it with the default [max_chars=220]. *)
Definition summarize_tool_result (tool payload : string) (max_chars : nat)
  : string :=
  let preview := Py.rstrip (Py.take max_chars payload) in
  let preview :=
    if max_chars <? String.length payload then preview ++ " ..." else preview in
  tool ++ ": " ++ preview.

(** One entry of [build_tools_spec]. *)
Definition function_spec (name description : string)
  (properties : list (string * json)) (required : list string) : json :=
  JObj [("type", JStr "function");
        ("function",
         JObj [("name", JStr name);
               ("description", JStr description);
               ("parameters",
                JObj [("type", JStr "object");
                      ("properties", JObj properties);
                      ("required", JArr (map JStr required))])])].

Definition build_tools_spec : list json :=
  [ function_spec "get_design_tokens"
      "Fetch design-system tokens such as colors, typography, spacing, or shadows."
      [("category",
        JObj [("type", JStr "string");
              ("description", JStr "Token category to retrieve");
              ("enum",
               JArr [JStr "colors"; JStr "typography"; JStr "spacing";
                     JStr "shadows"; JStr "border radius";
                     JStr "breakpoints"])])]
      ["category"];
    function_spec "get_component_spec"
      "Return the spec for a UI component such as Button, Card, Input, Modal, or Alert."
      [("component",
        JObj [("type", JStr "string");
              ("description", JStr "Component name; e.g. Button")])]
      ["component"];
    function_spec "get_pattern_guidance"
      "Look up development patterns and conventions (composition, naming, testing, etc.)."
      [("topic",
        JObj [("type", JStr "string");
              ("description", JStr "Pattern topic to retrieve")])]
      ["topic"] ].

(** ** demo_runner.py: the conversation *)

(** What the completion endpoint returns. *)
Record function_call := {
  fn_name : string;
  fn_arguments : option string
}.

Record tool_call := {
  tc_id : string;
  tc_function : function_call
}.

Record usage := {
  prompt_tokens : option Z;
  completion_tokens : option Z;
  total_tokens : option Z
}.

(** [choices[0].message]; a reasoning detail is the value of its ["text"]
    entry, when it has one. *)
Record chat_message := {
  msg_content : option string;
  msg_tool_calls : option (list tool_call);
  msg_reasoning_details : option (list (option string))
}.

Record chat_response := {
  resp_message : chat_message;
  resp_usage : option usage
}.

(** The entries of [messages]. *)
Inductive history_message : Type :=
| SystemMessage (content : string)
| UserMessage (content : string)
| AssistantMessage (content : string) (tool_calls : option (list tool_call))
| ToolMessage (tool_call_id : string) (content : string).

(** The records that [log_event] writes, one line each. *)
Inductive event : Type :=
| AssistantEvent (step : nat) (thinking : string) (content : option string)
    (tool_calls : list tool_call)
| ToolResultEvent (step : nat) (tool : string) (result : string)
| CompletionEvent (step : nat) (content : option string)
    (usage_payload : option usage).

(** The variables of [run_demo] that the loop updates, and the log file. *)
Record run_state := {
  messages : list history_message;
  log : list event;
  step : nat;
  tool_invocations : nat;
  thinking_segments : nat
}.

(** A computation that reads and updates the run state and may raise;
    what was written before the exception stays written. *)
Definition M (A : Type) : Type := run_state -> result A * run_state.

Definition ret {A : Type} (a : A) : M A := fun st => (Ok a, st).

Definition bind {A B : Type} (c : M A) (k : A -> M B) : M B :=
  fun st =>
    match c st with
    | (Ok a, st') => k a st'
    | (Raise e, st') => (Raise e, st')
    end.

Definition raise {A : Type} (e : exn) : M A := fun st => (Raise e, st).

Definition get : M run_state := fun st => (Ok st, st).

Definition modify (f : run_state -> run_state) : M unit :=
  fun st => (Ok tt, f st).

Definition lift {A : Type} (r : result A) : M A := fun st => (r, st).

Declare Scope run_scope.
Delimit Scope run_scope with run.
Notation "x <- c ;; k" := (bind c (fun x => k))
  (at level 61, c at next level, right associativity) : run_scope.
Notation "c ;; k" := (bind c (fun _ => k))
  (at level 61, right associativity) : run_scope.

Definition incr_step (st : run_state) : run_state :=
  {| messages := messages st; log := log st; step := S (step st);
     tool_invocations := tool_invocations st;
     thinking_segments := thinking_segments st |}.

Definition incr_tool_invocations (st : run_state) : run_state :=
  {| messages := messages st; log := log st; step := step st;
     tool_invocations := S (tool_invocations st);
     thinking_segments := thinking_segments st |}.

Definition incr_thinking_segments (st : run_state) : run_state :=
  {| messages := messages st; log := log st; step := step st;
     tool_invocations := tool_invocations st;
     thinking_segments := S (thinking_segments st) |}.

(** [messages.append(m)] *)
Definition append_message (m : history_message) : M unit :=
  modify (fun st =>
    {| messages := messages st ++ [m]; log := log st; step := step st;
       tool_invocations := tool_invocations st;
       thinking_segments := thinking_segments st |}).

(** [log_event(e)]: one more line at the end of the file. *)
Definition log_event (e : event) : M unit :=
  modify (fun st =>
    {| messages := messages st; log := log st ++ [e]; step := step st;
       tool_invocations := tool_invocations st;
       thinking_segments := thinking_segments st |}).

(** Truth value of an optional list. *)
Definition truthy {A : Type} (l : option (list A)) : bool :=
  match l with
  | Some (_ :: _) => true
  | _ => false
  end.

(** [x or d] for an optional str. *)
Definition str_or (x : option string) (d : string) : string :=
  match x with
  | Some (String c r) => String c r
  | _ => d
  end.

(** [x or 0] for an optional int. *)
Definition int_or_0 (x : option Z) : Z :=
  match x with
  | Some z => z
  | None => 0%Z
  end.

Definition SYSTEM_PROMPT : string :=
  "You are MiniMax-M2 running in interleaved mode. Think after every tool result, adjust your "
  ++ "plan, and keep reasoning transparent. If you call multiple tools, clearly integrate their "
  ++ "outputs before responding.".

Definition SCENARIOS : list (string * string) :=
  [ ("context_package",
     "You are the MiniMax-M2 coding assistant embedded in a front-end system design review. "
     ++ "Produce a crisp brief for the design system team that highlights: (1) critical design "
     ++ "tokens, (2) the Button implementation contract, and (3) one reusable development pattern "
     ++ "to protect. Use the provided tools after every thought instead of guessing. The audience "
     ++ "cares about interleaved reasoning efficiency, so weave in how each artifact supports fast "
     ++ "front-end iteration.");
    ("frontend_showcase",
     "MiniMax-M2 is pair-programming on a front-end build. Analyze the available documents, "
     ++ "select the most relevant tokens, component specs, and patterns, and draft an action plan "
     ++ "for shipping a polished UI section today. Explicitly call out how interleaved thinking cut "
     ++ "down redundant work and why this model is ideal for UI-heavy workflows.") ].

(** How a run ends; [OutOfFuel] stands for a loop still running after
    the given number of turns. *)
Inductive outcome : Type :=
| Finished (st : run_state)
| Aborted (e : exn) (st : run_state)
| OutOfFuel (st : run_state).

Section Conversation.

(** [json.loads]; [None] stands for [JSONDecodeError]. *)
Variable json_loads : string -> option json.

(** The completion endpoint: the response to the request of a given
    turn, which carries the whole history; [None] when the call or
    [response.choices[0]] raises. *)
Variable endpoint : nat -> list history_message -> option chat_response.

(** The text of the three sample documents. *)
Variable design_system_md component_specs_md code_patterns_md : string.

(** [os.getenv], once the [.env] files are loaded. *)
Variable getenv : string -> option string.

(** The call of a handler of one str parameter with the decoded
    arguments as its keyword arguments.  Anything but an object with
    exactly that key is a [TypeError]; the body starts by calling a str
    method on the value, an [AttributeError] for a value of another
    type.  The keys of a decoded object are distinct. *)
Definition call_with_kwargs (param : string) (body : string -> result string)
  (tool_args : json) : result string :=
  match tool_args with
  | JObj [(k, v)] =>
      if String.eqb k param then
        match v with
        | JStr s => body s
        | _ => Raise AttributeError
        end
      else Raise TypeError
  | _ => Raise TypeError
  end.

Definition TOOL_REGISTRY : list (string * (json -> result string)) :=
  [ ("get_design_tokens",
     call_with_kwargs "category"
       (fun category => Ok (get_design_tokens design_system_md category)));
    ("get_component_spec",
     call_with_kwargs "component" (get_component_spec component_specs_md));
    ("get_pattern_guidance",
     call_with_kwargs "topic"
       (fun topic => Ok (get_pattern_guidance code_patterns_md topic))) ].

(** [json.loads(tool_call.function.arguments or "{}")] *)
Definition decode_arguments (arguments : option string) : result json :=
  match json_loads (str_or arguments "{}") with
  | Some v => Ok v
  | None => Raise JSONDecodeError
  end.

Definition no_handler_message (tool_name : string) : string :=
  "No handler registered for tool " ++ tool_name.


(** What one tool call evaluates to: the decoded arguments go to the
    handler registered under the name of the call. *)
Definition tool_result (tool_call : tool_call) : result string :=
  match decode_arguments (fn_arguments (tc_function tool_call)) with
  | Raise e => Raise e
  | Ok tool_args =>
      match Dict.get (fn_name (tc_function tool_call)) TOOL_REGISTRY with
      | None =>
          Raise (RuntimeError
                   (no_handler_message (fn_name (tc_function tool_call))))
      | Some handler => handler tool_args
      end
  end.

Local Open Scope run_scope.

(** One iteration of [for tool_call in message.tool_calls]. *)
Definition handle_tool_call (tool_call : tool_call) : M unit :=
  let tool_name := fn_name (tc_function tool_call) in
  tool_args <- lift (decode_arguments (fn_arguments (tc_function tool_call))) ;;
  modify incr_tool_invocations ;;
  handler <- match Dict.get tool_name TOOL_REGISTRY with
             | Some handler => ret handler
             | None => raise (RuntimeError (no_handler_message tool_name))
             end ;;
  result <- lift (handler tool_args) ;;
  append_message (ToolMessage (tc_id tool_call) result) ;;
  st <- get ;;
  log_event (ToolResultEvent (step st) tool_name result).

Fixpoint handle_tool_calls (tool_calls : list tool_call) : M unit :=
  match tool_calls with
  | [] => ret tt
  | tool_call :: rest => handle_tool_call tool_call ;; handle_tool_calls rest
  end.

(** [message.reasoning_details[0].get("text", "")], or [""]. *)
Definition first_thinking (message : chat_message) : string :=
  match msg_reasoning_details message with
  | Some (Some text :: _) => text
  | _ => ""
  end.

Definition payloads_of (message : chat_message) : list tool_call :=
  match msg_tool_calls message with
  | Some tcs => tcs
  | None => []
  end.

Definition assistant_record (message : chat_message) : history_message :=
  AssistantMessage (str_or (msg_content message) "")
    (match payloads_of message with
     | [] => None
     | tc :: tcs => Some (tc :: tcs)
     end).

(** The branch after [continue]: the turn that ends the run. *)
Definition complete (response : chat_response) : M unit :=
  let message := resp_message response in
  let usage_payload := resp_usage response in
  st <- get ;;
  log_event (CompletionEvent (step st) (msg_content message) usage_payload) ;;
  let prompt_tokens :=
    int_or_0 (match usage_payload with Some u => prompt_tokens u | None => None end) in
  let completion_tokens :=
    int_or_0 (match usage_payload with Some u => completion_tokens u | None => None end) in
  _ <- lift (calc_cost prompt_tokens completion_tokens) ;;
  ret tt.

(** The body of [while True]; [true] is [continue], [false] is [break]. *)
Definition loop_body : M bool :=
  modify incr_step ;;
  st <- get ;;
  response <- match endpoint (step st) (messages st) with
              | Some response => ret response
              | None => raise EndpointError
              end ;;
  let message := resp_message response in
  let thinking := first_thinking message in
  let tool_call_payloads := payloads_of message in
  log_event (AssistantEvent (step st) thinking (msg_content message)
               tool_call_payloads) ;;
  append_message (assistant_record message) ;;
  match thinking with
  | EmptyString => ret tt
  | String _ _ => modify incr_thinking_segments
  end ;;
  if truthy (msg_tool_calls message) then
    handle_tool_calls (payloads_of message) ;;
    ret true
  else
    complete response ;;
    ret false.

(** [while True], for at most [fuel] turns. *)
Fixpoint run_loop (fuel : nat) (st : run_state) : outcome :=
  match fuel with
  | O => OutOfFuel st
  | S fuel' =>
      match loop_body st with
      | (Raise e, st') => Aborted e st'
      | (Ok true, st') => run_loop fuel' st'
      | (Ok false, st') => Finished st'
      end
  end.

Definition initial_state (user_prompt : string) : run_state :=
  {| messages := [SystemMessage SYSTEM_PROMPT; UserMessage user_prompt];
     log := [];
     step := 0;
     tool_invocations := 0;
     thinking_segments := 0 |}.

Definition empty_state : run_state :=
  {| messages := []; log := []; step := 0;
     tool_invocations := 0; thinking_segments := 0 |}.

(** [load_client]: the client is the endpoint, and it needs a key. *)
Definition load_client : result unit :=
  let api_key :=
    match getenv "MINIMAX_API_KEY" with
    | Some (String c r) => Some (String c r)
    | _ => getenv "OPENAI_API_KEY"
    end in
  match api_key with
  | Some (String _ _) => Ok tt
  | _ =>
      Raise (RuntimeError
               "Missing MINIMAX_API_KEY. Copy env.example and set your key.")
  end.

(** [run_demo(scenario)] *)
Definition run_demo (fuel : nat) (scenario : string) : outcome :=
  match Dict.get scenario SCENARIOS with
  | None => Aborted ValueError empty_state
  | Some user_prompt =>
      match load_client with
      | Raise e => Aborted e empty_state
      | Ok _ => run_loop fuel (initial_state user_prompt)
      end
  end.

End Conversation.

(** ** demo_runner.py: the transcript file *)

Section Transcript.

(** What [model_dump()] gives for a tool call and for the usage; both
    belong to the client library. *)
Variable dump_tool_call : tool_call -> json.
Variable dump_usage : usage -> json.

(** [str(n)] for a step number. *)
Definition decimal (n : nat) : string :=
  NilEmpty.string_of_uint (Nat.to_uint n).

Definition optional_str (x : option string) : json :=
  match x with
  | Some s => JStr s
  | None => JNull
  end.

(** The dict that the loop passes to [log_event]. *)
Definition event_json (e : event) : json :=
  match e with
  | AssistantEvent step thinking content tool_calls =>
      JObj [("step", JNum (decimal step));
            ("type", JStr "assistant");
            ("thinking", JStr thinking);
            ("content", optional_str content);
            ("tool_calls", JArr (map dump_tool_call tool_calls))]
  | ToolResultEvent step tool result =>
      JObj [("step", JNum (decimal step));
            ("type", JStr "tool_result");
            ("tool", JStr tool);
            ("result", JStr result)]
  | CompletionEvent step content usage_payload =>
      JObj [("step", JNum (decimal step));
            ("type", JStr "completion");
            ("content", optional_str content);
            ("usage",
             match usage_payload with
             | Some u => dump_usage u
             | None => JObj []
             end)]
  end.

(** What one call of [log_event] writes. *)
Definition log_line (e : event) : string :=
  Json.dumps (event_json e) ++ newline.

(** The text that the calls of [log_event] leave in the file. *)
Fixpoint transcript_text (l : list event) : string :=
  match l with
  | [] => EmptyString
  | e :: rest => log_line e ++ transcript_text rest
  end.

End Transcript.

(** ** Concrete collaborators, for running the model *)

Module Sample.

(** A decoder given by a table: the text that [json.dumps] writes for
    one of the [known] values decodes to that value, any other text is
    rejected. *)
Definition table_loads (known : list json) (text : string) : option json :=
  find (fun v => String.eqb (Json.dumps v) text) known.

(** An endpoint that plays a script: the response of turn [n] is the
    [n]-th entry, and it fails once the script is over. *)
Definition scripted (script : list (option chat_response))
  (step : nat) (_ : list history_message) : option chat_response :=
  nth (step - 1) script None.

Definition colors_args : json := JObj [("category", JStr "colors")].
Definition button_args : json := JObj [("component", JStr "button")].

Definition json_loads : string -> option json :=
  table_loads [JObj []; colors_args; button_args].

Definition design_system_md : string :=
  "# Design System" ++ newline ++ newline
  ++ "## Colors" ++ newline ++ "primary: #0055ff" ++ newline ++ newline
  ++ "## Spacing" ++ newline ++ "unit: 4px" ++ newline.

Definition component_specs_md : string :=
  "# Component Specs" ++ newline ++ newline
  ++ "## Button" ++ newline ++ "Primary action trigger." ++ newline ++ newline
  ++ "## Card" ++ newline ++ "Surface container." ++ newline.

Definition code_patterns_md : string :=
  "# Patterns" ++ newline ++ newline
  ++ "## Naming" ++ newline ++ "Use kebab-case file names." ++ newline.

Definition call (id name : string) (args : option json) : tool_call :=
  {| tc_id := id;
     tc_function := {| fn_name := name;
                       fn_arguments := option_map Json.dumps args |} |}.

Definition tool_turn (calls : list tool_call) : option chat_response :=
  Some {| resp_message := {| msg_content := None;
                             msg_tool_calls := Some calls;
                             msg_reasoning_details := Some [Some "plan"] |};
          resp_usage := None |}.

Definition final_turn (text : string) (u : option usage) : option chat_response :=
  Some {| resp_message := {| msg_content := Some text;
                             msg_tool_calls := None;
                             msg_reasoning_details := None |};
          resp_usage := u |}.

Definition small_usage : usage :=
  {| prompt_tokens := Some 1200%Z; completion_tokens := Some 300%Z;
     total_tokens := Some 1500%Z |}.

Definition getenv (name : string) : option string :=
  if String.eqb name "MINIMAX_API_KEY" then Some "sample-key" else None.

Definition run (script : list (option chat_response)) (fuel : nat) : outcome :=
  run_demo json_loads (scripted script)
    design_system_md component_specs_md code_patterns_md getenv
    fuel "context_package".

(** A prompt-token count beyond the range of a float. *)
Definition huge_usage : usage :=
  {| prompt_tokens := Some (2 ^ 1024)%Z; completion_tokens := Some 300%Z;
     total_tokens := None |}.

(** The collaborators above, plugged into the loop. *)
Definition body (script : list (option chat_response)) : M bool :=
  loop_body json_loads (scripted script)
    design_system_md component_specs_md code_patterns_md.

Definition loop (script : list (option chat_response)) (fuel : nat)
  (st : run_state) : outcome :=
  run_loop json_loads (scripted script)
    design_system_md component_specs_md code_patterns_md fuel st.

Definition result_of (tc : tool_call) : result string :=
  tool_result json_loads design_system_md component_specs_md code_patterns_md tc.

Definition colors_call : tool_call :=
  call "call_1" "get_design_tokens" (Some colors_args).
Definition weather_call : tool_call := call "call_2" "get_weather" None.
Definition button_call : tool_call :=
  call "call_3" "get_component_spec" (Some button_args).

(** One turn with a tool call, then the answer. *)
Definition two_turn_script : list (option chat_response) :=
  [tool_turn [colors_call]; final_turn "Brief." (Some small_usage)].

(** A turn whose second tool call names a tool that is not registered. *)
Definition unknown_tool_script : list (option chat_response) :=
  [tool_turn [colors_call; weather_call; button_call];
   final_turn "Brief." (Some small_usage)].

(** What the client library is taken to dump, for running the model. *)
Definition dump_tool_call (tc : tool_call) : json :=
  JObj [("id", JStr (tc_id tc));
        ("function",
         JObj [("arguments", JStr (str_or (fn_arguments (tc_function tc)) ""));
               ("name", JStr (fn_name (tc_function tc)))]);
        ("type", JStr "function")].

Definition dump_usage (u : usage) : json :=
  JObj [("prompt_tokens", JNum (decimal (Z.to_nat (int_or_0 (prompt_tokens u)))))].

(** A call of a tool without its argument. *)
Definition bare_call : tool_call := call "call_2" "get_pattern_guidance" None.

(** A turn whose second tool call fails inside the tool. *)
Definition failing_tool_script : list (option chat_response) :=
  [tool_turn [colors_call; bare_call; button_call];
   final_turn "Brief." (Some small_usage)].

(** An endpoint that asks for the colors again in every turn. *)
Definition always_tools (_ : nat) (_ : list history_message)
  : option chat_response :=
  tool_turn [colors_call].

End Sample.

(** ** Vocabulary of the properties *)

(** The state after a tool call that returned [result]. *)
Definition record_tool_result (st : run_state) (tool_call : tool_call)
  (result : string) : run_state :=
  {| messages := messages st ++ [ToolMessage (tc_id tool_call) result];
     log := log st
            ++ [ToolResultEvent (step st) (fn_name (tc_function tool_call)) result];
     step := step st;
     tool_invocations := S (tool_invocations st);
     thinking_segments := thinking_segments st |}.

Fixpoint record_tool_results (st : run_state) (tool_calls : list tool_call)
  (results : list string) : run_state :=
  match tool_calls, results with
  | tool_call :: tool_calls', result :: results' =>
      record_tool_results (record_tool_result st tool_call result)
        tool_calls' results'
  | _, _ => st
  end.

(** The tool messages of a turn: the i-th carries the identifier of the
    i-th tool call and the i-th result. *)
Fixpoint tool_messages (tool_calls : list tool_call) (results : list string)
  : list history_message :=
  match tool_calls, results with
  | tool_call :: tool_calls', result :: results' =>
      ToolMessage (tc_id tool_call) result :: tool_messages tool_calls' results'
  | _, _ => []
  end.

(** The state of a turn once the response is logged and appended to
    the history, before its tool calls or its completion. *)
Definition begin_turn (st : run_state) (response : chat_response) : run_state :=
  let message := resp_message response in
  {| messages := messages st ++ [assistant_record message];
     log := log st
            ++ [AssistantEvent (S (step st)) (first_thinking message)
                  (msg_content message) (payloads_of message)];
     step := S (step st);
     tool_invocations := tool_invocations st;
     thinking_segments :=
       match first_thinking message with
       | EmptyString => thinking_segments st
       | String _ _ => S (thinking_segments st)
       end |}.

(** The state once the [completion] record is written. *)
Definition log_completion (st : run_state) (response : chat_response)
  : run_state :=
  {| messages := messages st;
     log := log st
            ++ [CompletionEvent (step st) (msg_content (resp_message response))
                  (resp_usage response)];
     step := step st;
     tool_invocations := tool_invocations st;
     thinking_segments := thinking_segments st |}.

(** Each counter of [st'] is at least the one of [st]. *)
Definition counters_le (st st' : run_state) : Prop :=
  step st <= step st'
  /\ tool_invocations st <= tool_invocations st'
  /\ thinking_segments st <= thinking_segments st'.

(** The state in which a run ended or was cut. *)
Definition final_state (o : outcome) : run_state :=
  match o with
  | Finished st | Aborted _ st | OutOfFuel st => st
  end.

Definition is_completion (e : event) : bool :=
  match e with
  | CompletionEvent _ _ _ => true
  | _ => false
  end.

(** The number of [completion] records in a transcript. *)
Definition completions (l : list event) : nat :=
  List.length (filter is_completion l).

(** The exceptions that can end a run before its last turn has logged
    its [completion] record: of the endpoint, of the argument decoder,
    of the registry lookup, of a tool, and of the scenario and key
    lookups.  The one left out is raised by [calc_cost]. *)
Definition raised_before_completion (e : exn) : bool :=
  match e with
  | OverflowError => false
  | _ => true
  end.

(** Text made of the ASCII characters from the space to the tilde. *)
Fixpoint printable (s : string) : bool :=
  match s with
  | EmptyString => true
  | String c r =>
      (32 <=? Py.code c) && (Py.code c <=? 126) && printable r
  end.

(** A JSON value whose number lexemes are printable text. *)
Fixpoint clean (v : json) : bool :=
  match v with
  | JNum lexeme => printable lexeme
  | JArr items => forallb clean items
  | JObj members => forallb (fun kv => clean (snd kv)) members
  | _ => true
  end.

(** The name and the required parameters of a tool specification. *)
Definition spec_function (spec : json) : list (string * json) :=
  match spec with
  | JObj members =>
      match Dict.get "function" members with
      | Some (JObj f) => f
      | _ => []
      end
  | _ => []
  end.

Definition spec_name (spec : json) : option string :=
  match Dict.get "name" (spec_function spec) with
  | Some (JStr name) => Some name
  | _ => None
  end.

Definition spec_required (spec : json) : option (list json) :=
  match Dict.get "parameters" (spec_function spec) with
  | Some (JObj parameters) =>
      match Dict.get "required" parameters with
      | Some (JArr required) => Some required
      | _ => None
      end
  | _ => None
  end.

(** The [tool_result] records of a turn, beside [tool_messages]. *)
Fixpoint tool_events (step : nat) (tool_calls : list tool_call)
  (results : list string) : list event :=
  match tool_calls, results with
  | tool_call :: tool_calls', result :: results' =>
      ToolResultEvent step (fn_name (tc_function tool_call)) result
      :: tool_events step tool_calls' results'
  | _, _ => []
  end.

(** The ["step"] entry of a record. *)
Definition event_step (e : event) : nat :=
  match e with
  | AssistantEvent step _ _ _ => step
  | ToolResultEvent step _ _ => step
  | CompletionEvent step _ _ => step
  end.

Definition is_assistant_event (e : event) : bool :=
  match e with
  | AssistantEvent _ _ _ _ => true
  | _ => false
  end.

Definition is_thought (e : event) : bool :=
  match e with
  | AssistantEvent _ (String _ _) _ _ => true
  | _ => false
  end.

Definition is_tool_result (e : event) : bool :=
  match e with
  | ToolResultEvent _ _ _ => true
  | _ => false
  end.

Definition is_tool_message (m : history_message) : bool :=
  match m with
  | ToolMessage _ _ => true
  | _ => false
  end.

(** How many entries of a list pass a test. *)
Definition count {A : Type} (test : A -> bool) (l : list A) : nat :=
  List.length (filter test l).

(** A history that the endpoint accepts: the tool calls of an assistant
    message are answered, one tool message each and in their order,
    before anything else follows; [pending] holds the calls that still
    wait for their answer. *)
Fixpoint well_formed_from (pending : list tool_call)
  (history : list history_message) : bool :=
  match history with
  | [] => match pending with [] => true | _ :: _ => false end
  | m :: rest =>
      match pending, m with
      | tc :: pending', ToolMessage id _ =>
          String.eqb id (tc_id tc) && well_formed_from pending' rest
      | _ :: _, _ => false
      | [], ToolMessage _ _ => false
      | [], AssistantMessage _ (Some tcs) => well_formed_from tcs rest
      | [], _ => well_formed_from [] rest
      end
  end.

Definition well_formed (history : list history_message) : bool :=
  well_formed_from [] history.

(** The counters say what the transcript and the history hold. *)
Definition counters_agree (st : run_state) : Prop :=
  step st = count is_assistant_event (log st)
  /\ tool_invocations st = count is_tool_result (log st)
  /\ count is_tool_result (log st) = count is_tool_message (messages st)
  /\ thinking_segments st = count is_thought (log st).

(** "The argument matches no section", for the two tools that read the
    section dictionary. *)
Definition misses_key (normalized : string) (item : string * string) : bool :=
  negb (Py.contains normalized (fst item)).

Definition misses_key_and_text (normalized : string) (item : string * string)
  : bool :=
  negb (Py.contains normalized (fst item)
        || Py.contains normalized (Py.lower (snd item))).

(** The loop of [get_component_spec] goes on past the block: the block
    has a first line, and that line is empty or does not start with the
    argument.  An empty block is not passed: unpacking its lines
    raises. *)
Definition misses_block (normalized block : string) : bool :=
  match Py.splitlines block with
  | [] => false
  | EmptyString :: _ => true
  | header :: _ =>
      negb (Py.startswith (Py.lower (Py.strip header)) normalized)
  end.

(** The header of the block matches the argument: the block has a first
    line that is not empty and that, stripped and lower-cased, starts
    with the argument.  An empty block has no header and matches
    nothing. *)
Definition header_matches (normalized block : string) : bool :=
  match Py.splitlines block with
  | [] => false
  | EmptyString :: _ => false
  | header :: _ => Py.startswith (Py.lower (Py.strip header)) normalized
  end.

(** "The argument matches no section" for [get_component_spec]: no block
    has a header that matches.  It says nothing on whether a block is
    empty. *)
Definition no_header_matches (normalized : string) (blocks : list string)
  : bool :=
  forallb (fun block => negb (header_matches normalized block)) blocks.

(** No block is empty, so that each one has a first line to unpack. *)
Definition no_empty_block (blocks : list string) : Prop :=
  Forall (fun block => block <> "") blocks.

(** A document with a ["## Button"] section after a ["## Button Group"]
    section. *)
Definition button_group_md : string :=
  "# Component Specs" ++ newline ++ newline
  ++ "## Button Group" ++ newline ++ "Row of related actions." ++ newline ++ newline
  ++ "## Button" ++ newline ++ "Primary action trigger." ++ newline.

(** A specs document that starts with its first heading. *)
Definition heading_first_md : string :=
  "## Button" ++ newline ++ "Primary action trigger." ++ newline.

(** * Properties *)

(** ** Strings *)

Lemma prefix_empty (s : string) : String.prefix "" s = true.
Proof. destruct s; reflexivity. Qed.

Lemma prefix_append (s t : string) : String.prefix s (s ++ t) = true.
Proof.
  induction s as [|c s IH]; simpl.
  - apply prefix_empty.
  - destruct (ascii_dec c c) as [_|ne]; [exact IH | now elim ne].
Qed.

Lemma contains_empty (s : string) : Py.contains "" s = true.
Proof. destruct s; reflexivity. Qed.




Lemma append_assoc (a b c : string) : (a ++ b) ++ c = a ++ b ++ c.
Proof. induction a as [|x a IH]; simpl; [reflexivity | now rewrite IH]. Qed.


Lemma take_length (n : nat) (s : string) : String.length (Py.take n s) <= n.
Proof.
  revert s; induction n as [|n IH]; intros [|c s]; simpl; try lia.
  specialize (IH s). lia.
Qed.

Lemma take_not_empty (n : nat) (s : string) :
  s <> "" -> 0 < n -> Py.take n s <> "".
Proof.
  destruct s as [|c s]; [congruence|].
  destruct n as [|n]; [lia|]. simpl. discriminate.
Qed.

Lemma strip_empty_header (header : string) :
  Py.strip header <> "" -> header <> "".
Proof. intros H ->. now apply H. Qed.

(** ** The lookup tools *)

Lemma splitlines_nil (s : string) : Py.splitlines s = [] -> s = "".
Proof.
  destruct s as [|c s]; [reflexivity|]. cbn [Py.splitlines].
  destruct (Py.is_linebreak c); [discriminate|].
  destruct (Py.splitlines s); discriminate.
Qed.

(** Among blocks that are not empty, the loop passes every block whose
    header does not match. *)
Lemma no_match_passed (normalized : string) (blocks : list string) :
  no_empty_block blocks ->
  no_header_matches normalized blocks = true ->
  forallb (misses_block normalized) blocks = true.
Proof.
  unfold no_empty_block, no_header_matches.
  induction blocks as [|block blocks IH]; intros Hne Hno; [reflexivity|].
  inversion Hne as [|b bs Hblock Hrest]; subst b bs.
  cbn [forallb] in Hno |- *.
  apply andb_true_iff in Hno. destruct Hno as (Hhead & Htail).
  rewrite (IH Hrest Htail), andb_true_r.
  unfold header_matches in Hhead. unfold misses_block.
  destruct (Py.splitlines block) as [|header body] eqn:Hlines.
  - elim Hblock. now apply splitlines_nil.
  - destruct header as [|c header]; [reflexivity | exact Hhead].
Qed.





(** Blocks passed over do not change what the loop returns. *)
Lemma component_loop_skip (normalized : string) (before rest : list string) :
  forallb (misses_block normalized) before = true ->
  component_loop normalized (before ++ rest) = component_loop normalized rest.
Proof.
  induction before as [|block before IH]; simpl; [reflexivity|].
  unfold misses_block at 1.
  destruct (Py.splitlines block) as [|header body]; simpl; [discriminate|].
  destruct header as [|c header]; simpl; [exact IH|].
  destruct (Py.startswith _ normalized); simpl; [discriminate | exact IH].
Qed.





(** C8 (as amended).  When no block of the document before the
    ["Button"] block is empty, none of them has a header that starts
    with ["button"], and the body of the ["Button"] block is not blank,
    [get_component_spec("button")] returns component ["Button"] with a
    spec that is not empty and has at most 1600 characters. *)
Theorem button_spec_found (doc block header : string)
  (before after body : list string) :
  Py.split "## " doc = (before ++ block :: after)%list ->
  no_empty_block before ->
  no_header_matches "button" before = true ->
  Py.splitlines block = header :: body ->
  Py.strip header = "Button" ->
  Py.strip (Py.join newline body) <> "" ->
  exists spec,
    get_component_spec doc "button"
    = Ok (Json.dumps (JObj [("component", JStr "Button"); ("spec", JStr spec)]))
    /\ spec <> ""
    /\ String.length spec <= 1600.
Proof.
  intros Hsplit Hne Hno Hlines Hheader Hbody.
  pose proof (no_match_passed _ _ Hne Hno) as Hbefore.
  exists (Py.take 1600 (Py.strip (Py.join newline body))).
  split; [|split].
  - unfold get_component_spec.
    change (Py.lower (Py.strip "button")) with "button".
    rewrite Hsplit, (component_loop_skip _ _ _ Hbefore).
    simpl. rewrite Hlines.
    destruct header as [|c header]; [discriminate Hheader|].
    now rewrite Hheader.
  - apply take_not_empty; [exact Hbody | lia].
  - apply take_length.
Qed.

Lemma button_spec_found_witness :
  exists spec,
    get_component_spec Sample.component_specs_md "button"
    = Ok (Json.dumps (JObj [("component", JStr "Button"); ("spec", JStr spec)]))
    /\ spec <> ""
    /\ String.length spec <= 1600.
Proof.
  apply (button_spec_found Sample.component_specs_md
           ("Button" ++ newline ++ "Primary action trigger." ++ newline ++ newline)
           "Button"
           ["# Component Specs" ++ newline ++ newline]
           ["Card" ++ newline ++ "Surface container." ++ newline]
           ["Primary action trigger."; ""]).
  - vm_compute; reflexivity.
  - vm_compute. repeat constructor; discriminate.
  - vm_compute; reflexivity.
  - vm_compute; reflexivity.
  - vm_compute; reflexivity.
  - vm_compute; discriminate.
Defined.

(** C8 as stated fails: the document has a ["## Button"] section, and
    [get_component_spec("button")] answers with the section
    ["Button Group"], the first whose header starts with ["button"]. *)
Lemma button_spec_other_section :
  In ("Button" ++ newline ++ "Primary action trigger." ++ newline)
     (Py.split "## " button_group_md)
  /\ get_component_spec button_group_md "button"
     = Ok (Json.dumps (JObj [("component", JStr "Button Group");
                             ("spec", JStr "Row of related actions.")]))
  /\ forall spec,
       get_component_spec button_group_md "button"
       <> Ok (Json.dumps (JObj [("component", JStr "Button");
                                ("spec", JStr spec)])).
Proof.
  split; [vm_compute; right; right; left; reflexivity|].
  split; [vm_compute; reflexivity|].
  intros spec H.
  assert (E : get_component_spec button_group_md "button"
              = Ok (Json.dumps (JObj [("component", JStr "Button Group");
                                      ("spec", JStr "Row of related actions.")])))
    by (vm_compute; reflexivity).
  rewrite E in H. cbn in H. discriminate H.
Qed.

(** C10.  With the empty argument, [get_design_tokens] and
    [get_pattern_guidance] return the first section of a document that
    has one; [get_component_spec] raises on a document that starts with
    a heading, because the text before the first ["## "] is an empty
    block. *)
Theorem empty_argument_lookup :
  (forall doc key value rest,
     _load_markdown_sections doc = (key, value) :: rest ->
     get_design_tokens doc ""
     = Json.dumps (JObj [("section", JStr key);
                         ("tokens", JStr (Py.take 1200 value))])
     /\ get_pattern_guidance doc ""
        = Json.dumps (JObj [("topic", JStr key);
                            ("guidance", JStr (Py.take 1600 value))]))
  /\ Py.split "## " heading_first_md
     = [""; "Button" ++ newline ++ "Primary action trigger." ++ newline]
  /\ get_component_spec heading_first_md "" = Raise ValueError.
Proof.
  split; [|split; vm_compute; reflexivity].
  intros doc key value rest Hload.
  unfold get_design_tokens, get_pattern_guidance.
  rewrite Hload. simpl.
  now rewrite contains_empty.
Qed.

Lemma empty_argument_lookup_witness :
  get_design_tokens Sample.design_system_md ""
  = Json.dumps (JObj [("section", JStr "introduction");
                      ("tokens", JStr "# Design System")]).
Proof.
  apply (proj1 empty_argument_lookup Sample.design_system_md
           "introduction" "# Design System"
           [("colors", "primary: #0055ff"); ("spacing", "unit: 4px")]).
  vm_compute; reflexivity.
Defined.

(** ** The cost calculator *)

Section Rounding.

Variables p_ e_ : Z.

Lemma shr_1_nonneg (mrs : shr_record) :
  (0 <= shr_m mrs)%Z -> (0 <= shr_m (shr_1 mrs))%Z.
Proof.
  destruct mrs as [m r s]; simpl.
  destruct m as [|[q|q|]|q]; simpl; lia.
Qed.

Lemma iter_shr_1_nonneg (n : positive) (mrs : shr_record) :
  (0 <= shr_m mrs)%Z -> (0 <= shr_m (iter_pos shr_1 n mrs))%Z.
Proof.
  revert mrs; induction n as [n IH|n IH|]; intros mrs H; simpl.
  - apply IH, IH, shr_1_nonneg, H.
  - apply IH, IH, H.
  - apply shr_1_nonneg, H.
Qed.

Lemma shr_fexp_nonneg (m e : Z) (l : location) :
  (0 <= m)%Z -> (0 <= shr_m (fst (shr_fexp p_ e_ m e l)))%Z.
Proof.
  intros H. unfold shr_fexp, shr.
  assert (H0 : (0 <= shr_m (shr_record_of_loc m l))%Z)
    by (destruct l as [|[| |]]; exact H).
  destruct (fexp p_ e_ (Zdigits2 m + e) - e)%Z; simpl; try exact H0.
  now apply iter_shr_1_nonneg.
Qed.

Lemma round_nearest_even_nonneg (m : Z) (l : location) :
  (0 <= m)%Z -> (0 <= round_nearest_even m l)%Z.
Proof.
  intros H. destruct l as [|[| |]]; simpl; try lia.
  destruct (Z.even m); lia.
Qed.

(** Rounding keeps the sign it is given. *)
Lemma binary_round_aux_sign (sx : bool) (mx ex : Z) (lx : location) :
  (0 <= mx)%Z -> sign_bit (binary_round_aux p_ e_ sx mx ex lx) = Some sx.
Proof.
  intros H. unfold binary_round_aux.
  pose proof (shr_fexp_nonneg mx ex lx H) as H1.
  destruct (shr_fexp p_ e_ mx ex lx) as [mrs' e']; simpl in H1.
  pose proof (shr_fexp_nonneg _ e' loc_Exact
                (round_nearest_even_nonneg _ (loc_of_shr_record mrs') H1)) as H2.
  destruct (shr_fexp p_ e_ _ e' loc_Exact) as [mrs'' e'']; simpl in H2.
  destruct (shr_m mrs'') as [|m|m]; simpl; [reflexivity| |lia].
  destruct (e'' <=? e_ - p_)%Z; reflexivity.
Qed.

Lemma binary_normalize_negative (z e : Z) :
  (z < 0)%Z -> sign_bit (binary_normalize p_ e_ z e false) = Some true.
Proof.
  intros H. destruct z as [|m|m]; try lia.
  unfold binary_normalize, binary_round.
  destruct (shl_align m e _) as [mz ez].
  apply binary_round_aux_sign. lia.
Qed.

Lemma SFmul_negative (f : float) (m : positive) (e : Z) :
  sign_bit f = Some true ->
  sign_bit (SFmul p_ e_ f (S754_finite false m e)) = Some true.
Proof.
  destruct f as [s|s| |s mf ef]; simpl; intros H; try discriminate;
    injection H as ->; try reflexivity.
  apply binary_round_aux_sign. lia.
Qed.

End Rounding.

Lemma float_of_int_negative (z : Z) (f : float) :
  (z < 0)%Z -> float_of_int z = Ok f -> sign_bit f = Some true.
Proof.
  intros Hz. unfold float_of_int.
  pose proof (binary_normalize_negative prec emax z 0 Hz) as Hs.
  destruct (binary_normalize prec emax z 0 false); intros H;
    try discriminate; injection H as <-; exact Hs.
Qed.

Lemma COST_PER_INPUT_TOKEN_value :
  COST_PER_INPUT_TOKEN = S754_finite false 5666839779443574 (-74).
Proof. vm_compute; reflexivity. Qed.

Lemma COST_PER_OUTPUT_TOKEN_value :
  COST_PER_OUTPUT_TOKEN = S754_finite false 5666839779443574 (-72).
Proof. vm_compute; reflexivity. Qed.

(** C2 (as amended).  [calc_cost] does not look at the sign of its
    inputs: whenever both counts convert to a float it returns the two
    products and their sum, and the cost of a negative count has its
    sign bit set. *)
Theorem calc_cost_unchecked (prompt_tokens completion_tokens : Z)
  (p c : float) :
  float_of_int prompt_tokens = Ok p ->
  float_of_int completion_tokens = Ok c ->
  calc_cost prompt_tokens completion_tokens
  = Ok (SFmul prec emax p COST_PER_INPUT_TOKEN,
        SFmul prec emax c COST_PER_OUTPUT_TOKEN,
        SFadd prec emax (SFmul prec emax p COST_PER_INPUT_TOKEN)
                        (SFmul prec emax c COST_PER_OUTPUT_TOKEN))
  /\ ((prompt_tokens < 0)%Z ->
      sign_bit (SFmul prec emax p COST_PER_INPUT_TOKEN) = Some true)
  /\ ((completion_tokens < 0)%Z ->
      sign_bit (SFmul prec emax c COST_PER_OUTPUT_TOKEN) = Some true).
Proof.
  intros Hp Hc. split; [|split].
  - unfold calc_cost. now rewrite Hp, Hc.
  - intros Hneg. rewrite COST_PER_INPUT_TOKEN_value.
    apply SFmul_negative. exact (float_of_int_negative _ _ Hneg Hp).
  - intros Hneg. rewrite COST_PER_OUTPUT_TOKEN_value.
    apply SFmul_negative. exact (float_of_int_negative _ _ Hneg Hc).
Qed.

Lemma calc_cost_unchecked_witness :
  sign_bit (SFmul prec emax (S754_finite true 6755399441055744 (-51))
              COST_PER_INPUT_TOKEN) = Some true.
Proof.
  apply (proj1 (proj2 (calc_cost_unchecked (-3) (-3)
                         (S754_finite true 6755399441055744 (-51))
                         (S754_finite true 6755399441055744 (-51))
                         ltac:(vm_compute; reflexivity)
                         ltac:(vm_compute; reflexivity)))).
  lia.
Defined.

(** C2 as stated fails: for the counts -1 and 0 the calculator returns
    the input cost -3e-07, the product of the negative count and the
    input rate, and a total of -3e-07. *)
Lemma calc_cost_negative_count :
  calc_cost (-1) 0
  = Ok (S754_finite true 5666839779443574 (-74),
        S754_zero false,
        S754_finite true 5666839779443574 (-74))
  /\ SFmul prec emax (S754_finite true 4503599627370496 (-52)) COST_PER_INPUT_TOKEN
     = S754_finite true 5666839779443574 (-74)
  /\ calc_cost 0 0 = Ok (S754_zero false, S754_zero false, S754_zero false).
Proof. repeat split; vm_compute; reflexivity. Qed.

(** ** The conversation loop *)

Lemma completions_snoc (l : list event) (e : event) :
  completions (l ++ [e])%list
  = completions l + (if is_completion e then 1 else 0).
Proof.
  unfold completions. rewrite filter_app, length_app. simpl.
  destruct (is_completion e); reflexivity.
Qed.

Lemma component_loop_raises (normalized : string) (blocks : list string) (e : exn) :
  component_loop normalized blocks = Raise e -> e = ValueError.
Proof.
  induction blocks as [|block blocks IH]; simpl; [discriminate|].
  destruct (Py.splitlines block) as [|header body]; [congruence|].
  destruct header as [|c header]; [exact IH|].
  destruct (Py.startswith _ normalized); [discriminate | exact IH].
Qed.

Lemma get_component_spec_raises (doc component : string) (e : exn) :
  get_component_spec doc component = Raise e -> e = ValueError.
Proof.
  unfold get_component_spec.
  destruct (component_loop _ _) as [[payload|]|e'] eqn:E; try discriminate.
  intros H; injection H as <-. exact (component_loop_raises _ _ _ E).
Qed.

Lemma call_with_kwargs_raises (param : string) (body : string -> result string)
  (tool_args : json) (e : exn) :
  (forall s e', body s = Raise e' -> raised_before_completion e' = true) ->
  call_with_kwargs param body tool_args = Raise e ->
  raised_before_completion e = true.
Proof.
  intros Hbody. unfold call_with_kwargs.
  destruct tool_args as [| | | |items|members];
    try (intros H; injection H as <-; reflexivity).
  destruct members as [|[k v] [|m members]];
    try (intros H; injection H as <-; reflexivity).
  destruct (String.eqb k param); [|intros H; injection H as <-; reflexivity].
  destruct v; try (intros H; injection H as <-; reflexivity).
  apply Hbody.
Qed.

Section ConversationProperties.

Variable json_loads : string -> option json.
Variable endpoint : nat -> list history_message -> option chat_response.
Variable design_system_md component_specs_md code_patterns_md : string.
Variable getenv : string -> option string.

Local Open Scope list_scope.

Local Abbreviation registry :=
  (TOOL_REGISTRY design_system_md component_specs_md code_patterns_md).
Local Abbreviation result_of :=
  (tool_result json_loads design_system_md component_specs_md code_patterns_md).
Local Abbreviation handle_one :=
  (handle_tool_call json_loads design_system_md component_specs_md
     code_patterns_md).
Local Abbreviation handle_all :=
  (handle_tool_calls json_loads design_system_md component_specs_md
     code_patterns_md).
Local Abbreviation body :=
  (loop_body json_loads endpoint design_system_md component_specs_md
     code_patterns_md).
Local Abbreviation loop :=
  (run_loop json_loads endpoint design_system_md component_specs_md
     code_patterns_md).

(** *** One tool call *)

Lemma handle_tool_call_ok (tc : tool_call) (r : string) (st : run_state) :
  result_of tc = Ok r ->
  handle_one tc st = (Ok tt, record_tool_result st tc r).
Proof.
  unfold tool_result, handle_tool_call, bind, lift, modify, ret, raise, get,
    append_message, log_event.
  destruct (decode_arguments json_loads _) as [tool_args|e]; [|discriminate].
  cbv beta iota.
  destruct (Dict.get (fn_name (tc_function tc)) registry) as [handler|];
    [|discriminate].
  cbv beta iota. intros ->. reflexivity.
Qed.

Lemma handle_tool_call_raise (tc : tool_call) (e : exn) (st : run_state) :
  result_of tc = Raise e ->
  exists st',
    handle_one tc st = (Raise e, st')
    /\ messages st' = messages st
    /\ log st' = log st
    /\ step st' = step st
    /\ thinking_segments st' = thinking_segments st
    /\ tool_invocations st <= tool_invocations st'.
Proof.
  unfold tool_result, handle_tool_call, bind, lift, modify, ret, raise, get,
    append_message, log_event.
  destruct (decode_arguments json_loads _) as [tool_args|e0]; cbv beta iota.
  - destruct (Dict.get (fn_name (tc_function tc)) registry) as [handler|];
      cbv beta iota.
    + intros ->. eexists; split; [reflexivity|].
      cbn [messages log step thinking_segments tool_invocations incr_tool_invocations].
      repeat split; lia.
    + intros H; injection H as <-.
      eexists; split; [reflexivity|].
      cbn [messages log step thinking_segments tool_invocations incr_tool_invocations].
      repeat split; lia.
  - intros H; injection H as <-.
    eexists; split; [reflexivity|]. repeat split; lia.
Qed.

Lemma registry_handlers (name : string) (handler : json -> result string)
  (tool_args : json) (e : exn) :
  Dict.get name registry = Some handler ->
  handler tool_args = Raise e ->
  raised_before_completion e = true.
Proof.
  unfold TOOL_REGISTRY; cbn [Dict.get].
  repeat match goal with
         | |- context [String.eqb ?a name] => destruct (String.eqb a name)
         end; try discriminate;
    intros H; injection H as <-; apply call_with_kwargs_raises.
  - discriminate.
  - intros s e' He'. now rewrite (get_component_spec_raises _ _ _ He').
  - discriminate.
Qed.

Lemma tool_result_raises (tc : tool_call) (e : exn) :
  result_of tc = Raise e -> raised_before_completion e = true.
Proof.
  unfold tool_result, decode_arguments.
  destruct (json_loads _) as [tool_args|]; [|intros H; injection H as <-; reflexivity].
  destruct (Dict.get (fn_name (tc_function tc)) registry) as [handler|] eqn:Hget;
    [|intros H; injection H as <-; reflexivity].
  exact (registry_handlers _ _ _ _ Hget).
Qed.

(** *** The tool calls of one turn *)

Lemma handle_tool_calls_cons (tc : tool_call) (rest : list tool_call)
  (st : run_state) :
  handle_all (tc :: rest) st
  = match handle_one tc st with
    | (Ok _, st') => handle_all rest st'
    | (Raise e, st') => (Raise e, st')
    end.
Proof. reflexivity. Qed.

Lemma handle_tool_calls_ok (tcs : list tool_call) (results : list string) :
  Forall2 (fun tc r => result_of tc = Ok r) tcs results ->
  forall st, handle_all tcs st = (Ok tt, record_tool_results st tcs results).
Proof.
  induction 1 as [|tc r tcs results Hr _ IH]; intros st; [reflexivity|].
  rewrite handle_tool_calls_cons, (handle_tool_call_ok _ _ _ Hr).
  apply IH.
Qed.

Lemma record_tool_results_state (tcs : list tool_call) (results : list string) :
  forall st,
    messages (record_tool_results st tcs results)
    = messages st ++ tool_messages tcs results
    /\ step (record_tool_results st tcs results) = step st
    /\ thinking_segments (record_tool_results st tcs results)
       = thinking_segments st
    /\ tool_invocations st
       <= tool_invocations (record_tool_results st tcs results)
    /\ completions (log (record_tool_results st tcs results))
       = completions (log st).
Proof.
  revert results; induction tcs as [|tc tcs IH]; intros [|r results] st;
    cbn [record_tool_results tool_messages];
    try (rewrite app_nil_r; repeat split; lia).
  destruct (IH results (record_tool_result st tc r)) as (Hm & Hs & Ht & Hi & Hc).
  rewrite Hm, Hs, Ht, Hc. cbn [record_tool_result messages step thinking_segments log].
  cbn [record_tool_result tool_invocations] in Hi.
  rewrite <- app_assoc. repeat split; try lia.
  rewrite completions_snoc. cbn [is_completion]. lia.
Qed.

Lemma tool_messages_length (tcs : list tool_call) (results : list string) :
  Forall2 (fun tc r => result_of tc = Ok r) tcs results ->
  List.length (tool_messages tcs results) = List.length tcs.
Proof. induction 1; simpl; [reflexivity | now f_equal]. Qed.

(** Whatever the tool calls do, the turn number and the number of
    thinking segments stay, the number of invocations does not go down,
    no [completion] record is written, and an exception is not the one
    of the cost calculator. *)
Lemma handle_tool_calls_invariant (tcs : list tool_call) :
  forall st r st',
    handle_all tcs st = (r, st') ->
    step st' = step st
    /\ thinking_segments st' = thinking_segments st
    /\ tool_invocations st <= tool_invocations st'
    /\ completions (log st') = completions (log st)
    /\ match r with
       | Ok _ => True
       | Raise e => raised_before_completion e = true
       end.
Proof.
  induction tcs as [|tc tcs IH]; intros st r st' H.
  - injection H as <- <-. repeat split; lia.
  - rewrite handle_tool_calls_cons in H.
    destruct (result_of tc) as [res|e] eqn:Hres.
    + rewrite (handle_tool_call_ok _ _ _ Hres) in H.
      destruct (IH _ _ _ H) as (Hs & Ht & Hi & Hc & Hr).
      rewrite Hs, Ht, Hc.
      cbn [record_tool_result step thinking_segments log tool_invocations] in *.
      repeat split; try lia; [|exact Hr].
      rewrite completions_snoc. cbn [is_completion]. lia.
    + destruct (handle_tool_call_raise _ _ st Hres) as (st1 & E & Hm & Hl & Hs & Ht & Hi).
      rewrite E in H. injection H as <- <-.
      rewrite Hl, Hs, Ht. repeat split; try lia.
      exact (tool_result_raises _ _ Hres).
Qed.

(** The loop over the tool calls stops at a call that raises: the calls
    after it are not handled, and only calls before it have a message. *)
Lemma handle_tool_calls_stop (tc : tool_call) (post : list tool_call) (e0 : exn) :
  result_of tc = Raise e0 ->
  forall pre st,
  exists e st' k results,
    handle_all (pre ++ tc :: post) st = (Raise e, st')
    /\ k <= List.length pre
    /\ Forall2 (fun tc r => result_of tc = Ok r) (firstn k pre) results
    /\ messages st' = messages st ++ tool_messages (firstn k pre) results
    /\ (k = List.length pre -> e = e0).
Proof.
  intros Htc. induction pre as [|a pre IH]; intros st.
  - destruct (handle_tool_call_raise _ _ st Htc) as (st1 & E & Hm & _).
    exists e0, st1, 0, []. cbn [app]. rewrite handle_tool_calls_cons, E.
    repeat split; [lia | constructor | now rewrite Hm, app_nil_r].
  - cbn [app]. rewrite handle_tool_calls_cons.
    destruct (result_of a) as [res|e] eqn:Hres.
    + rewrite (handle_tool_call_ok _ _ _ Hres).
      destruct (IH (record_tool_result st a res)) as (e & st' & k & results & E & Hk & Hok & Hm & He).
      exists e, st', (S k), (res :: results).
      repeat split.
      * exact E.
      * simpl; lia.
      * cbn [firstn]. now constructor.
      * rewrite Hm. cbn [record_tool_result messages firstn tool_messages].
        now rewrite <- app_assoc.
      * intros Hlen. apply He. simpl in Hlen. lia.
    + destruct (handle_tool_call_raise _ _ st Hres) as (st1 & E & Hm & _).
      exists e, st1, 0, []. rewrite E.
      repeat split; [lia | constructor | now rewrite Hm, app_nil_r |].
      simpl; discriminate.
Qed.

(** *** One turn *)

Lemma loop_body_unfold (st : run_state) :
  body st
  = match endpoint (S (step st)) (messages st) with
    | None => (Raise EndpointError, incr_step st)
    | Some response =>
        if truthy (msg_tool_calls (resp_message response)) then
          match handle_all (payloads_of (resp_message response))
                  (begin_turn st response) with
          | (Ok _, st') => (Ok true, st')
          | (Raise e, st') => (Raise e, st')
          end
        else
          match calc_cost
                  (int_or_0 (match resp_usage response with
                             | Some u => prompt_tokens u
                             | None => None
                             end))
                  (int_or_0 (match resp_usage response with
                             | Some u => completion_tokens u
                             | None => None
                             end)) with
          | Ok _ => (Ok false, log_completion (begin_turn st response) response)
          | Raise e => (Raise e, log_completion (begin_turn st response) response)
          end
    end.
Proof.
  unfold loop_body, complete, append_message, log_event, begin_turn,
    log_completion, bind, lift, modify, ret, raise, get.
  cbn [incr_step step messages log tool_invocations thinking_segments].
  destruct (endpoint (S (step st)) (messages st)) as [response|]; [|reflexivity].
  cbv beta iota zeta.
  destruct (first_thinking (resp_message response)); cbv beta iota zeta;
    cbn [incr_thinking_segments step messages log tool_invocations
         thinking_segments];
    destruct (truthy (msg_tool_calls (resp_message response)));
    try (destruct (handle_all _ _) as [[[]|e] st']; reflexivity);
    destruct (calc_cost _ _); reflexivity.
Qed.

Lemma truthy_payloads (message : chat_message) (tcs : list tool_call) :
  msg_tool_calls message = Some tcs ->
  payloads_of message = tcs
  /\ (tcs <> [] -> truthy (msg_tool_calls message) = true).
Proof.
  intros H. unfold payloads_of. rewrite H. split; [reflexivity|].
  destruct tcs; [congruence | reflexivity].
Qed.

(** What one turn does to the counters and to the transcript. *)
Lemma loop_body_invariant (st : run_state) (r : result bool) (st' : run_state) :
  body st = (r, st') ->
  step st' = S (step st)
  /\ tool_invocations st <= tool_invocations st'
  /\ thinking_segments st <= thinking_segments st'
  /\ match r with
     | Ok true => completions (log st') = completions (log st)
     | Ok false => completions (log st') = S (completions (log st))
     | Raise e =>
         raised_before_completion e = true ->
         completions (log st') = completions (log st)
     end.
Proof.
  rewrite loop_body_unfold.
  destruct (endpoint (S (step st)) (messages st)) as [response|].
  - assert (Hbegin : step (begin_turn st response) = S (step st)
                     /\ tool_invocations (begin_turn st response)
                        = tool_invocations st
                     /\ thinking_segments st
                        <= thinking_segments (begin_turn st response)
                     /\ completions (log (begin_turn st response))
                        = completions (log st)).
    { unfold begin_turn; cbn [step tool_invocations thinking_segments log].
      repeat split.
      - destruct (first_thinking (resp_message response)); lia.
      - rewrite completions_snoc. cbn [is_completion]. lia. }
    destruct Hbegin as (Hs & Hi & Ht & Hc).
    destruct (truthy (msg_tool_calls (resp_message response))).
    + destruct (handle_all _ _) as [r0 st0] eqn:E.
      destruct (handle_tool_calls_invariant _ _ _ _ E) as (Hs0 & Ht0 & Hi0 & Hc0 & Hr0).
      destruct r0 as [[]|e]; intros H; injection H as <- <-;
        (split; [|split; [|split]]; [lia | lia | lia | ]).
      * now rewrite Hc0.
      * intros _. now rewrite Hc0.
    + assert (Hlog : completions (log (log_completion (begin_turn st response) response))
                     = S (completions (log st))).
      { unfold log_completion; cbn [log].
        rewrite completions_snoc, Hc. cbn [is_completion]. lia. }
      destruct (calc_cost _ _) as [cost|e] eqn:Ecost; intros H; injection H as <- <-;
        unfold log_completion at 1 2 3; cbn [step tool_invocations thinking_segments];
        (split; [|split; [|split]]; [lia | lia | lia | ]).
      * exact Hlog.
      * unfold calc_cost, float_of_int in Ecost.
        repeat match type of Ecost with
               | context [binary_normalize ?a ?b ?c ?d ?f] =>
                   destruct (binary_normalize a b c d f)
               end; try discriminate; injection Ecost as <-; discriminate.
  - intros H; injection H as <- <-. cbn [incr_step step tool_invocations
                                           thinking_segments log].
    repeat split; lia.
Qed.

(** *** The claims on the loop *)

(** C5.  In a turn whose response has tool calls that all succeed, the
    history grows by the assistant message and then by one tool message
    per tool call, the i-th carrying the identifier of the i-th call and
    the result of invoking it. *)
Theorem tool_messages_in_order (st : run_state) (response : chat_response)
  (tcs : list tool_call) (results : list string) :
  endpoint (S (step st)) (messages st) = Some response ->
  msg_tool_calls (resp_message response) = Some tcs ->
  tcs <> [] ->
  Forall2 (fun tc r => result_of tc = Ok r) tcs results ->
  exists st',
    body st = (Ok true, st')
    /\ messages st'
       = messages st
         ++ assistant_record (resp_message response) :: tool_messages tcs results
    /\ List.length (tool_messages tcs results) = List.length tcs.
Proof.
  intros Hresp Hcalls Hne Hok.
  destruct (truthy_payloads _ _ Hcalls) as (Hpay & Htruthy).
  exists (record_tool_results (begin_turn st response) tcs results).
  split; [|split].
  - rewrite loop_body_unfold, Hresp, (Htruthy Hne), Hpay.
    now rewrite (handle_tool_calls_ok _ _ Hok).
  - destruct (record_tool_results_state tcs results (begin_turn st response))
      as (Hm & _).
    rewrite Hm. unfold begin_turn; cbn [messages].
    now rewrite <- app_assoc.
  - exact (tool_messages_length _ _ Hok).
Qed.

(** C4.  When a response has a tool call whose name is not in the
    registry, the turn ends with an exception and so does the run: the
    calls after it are not handled, only calls before it have a tool
    message, and when those succeed the exception is the decode error of
    its arguments or the [RuntimeError] of the lookup. *)
Theorem unknown_tool_is_fatal (st : run_state) (response : chat_response)
  (pre post : list tool_call) (tc : tool_call) :
  endpoint (S (step st)) (messages st) = Some response ->
  msg_tool_calls (resp_message response) = Some (pre ++ tc :: post) ->
  Dict.get (fn_name (tc_function tc)) registry = None ->
  exists e st' k results,
    body st = (Raise e, st')
    /\ (forall fuel, loop (S fuel) st = Aborted e st')
    /\ k <= List.length pre
    /\ Forall2 (fun tc r => result_of tc = Ok r) (firstn k pre) results
    /\ messages st'
       = messages st
         ++ assistant_record (resp_message response)
            :: tool_messages (firstn k pre) results
    /\ (k = List.length pre ->
        e = JSONDecodeError
        \/ e = RuntimeError (no_handler_message (fn_name (tc_function tc)))).
Proof.
  intros Hresp Hcalls Hget.
  destruct (truthy_payloads _ _ Hcalls) as (Hpay & Htruthy).
  assert (Hraise : exists e0,
             result_of tc = Raise e0
             /\ (e0 = JSONDecodeError
                 \/ e0 = RuntimeError (no_handler_message (fn_name (tc_function tc))))).
  { unfold tool_result. rewrite Hget.
    unfold decode_arguments. destruct (json_loads _); eauto. }
  destruct Hraise as (e0 & He0 & Hkind).
  destruct (handle_tool_calls_stop tc post e0 He0 pre (begin_turn st response))
    as (e & st' & k & results & E & Hk & Hok & Hm & He).
  assert (Hbody : body st = (Raise e, st')).
  { rewrite loop_body_unfold, Hresp, Htruthy, Hpay, E; [reflexivity|].
    destruct pre; discriminate. }
  exists e, st', k, results. repeat split; try assumption.
  - intros fuel. cbn [run_loop]. now rewrite Hbody.
  - rewrite Hm. unfold begin_turn; cbn [messages]. now rewrite <- app_assoc.
  - intros Hlen. rewrite (He Hlen). exact Hkind.
Qed.

(** C6.  A missing argument string and an empty one are both decoded as
    the text ["{}"], that is as the empty object, and not as a decode
    error. *)
Theorem empty_arguments_decode :
  json_loads "{}" = Some (JObj []) ->
  decode_arguments json_loads None = Ok (JObj [])
  /\ decode_arguments json_loads (Some EmptyString) = Ok (JObj []).
Proof.
  intros H. unfold decode_arguments; cbn [str_or]. now rewrite H.
Qed.

(** *** Whole runs *)

Lemma run_loop_invariant (fuel : nat) :
  forall st,
    counters_le st (final_state (loop fuel st))
    /\ match loop fuel st with
       | Finished st' => completions (log st') = S (completions (log st))
       | Aborted e st' =>
           raised_before_completion e = true ->
           completions (log st') = completions (log st)
       | OutOfFuel st' => completions (log st') = completions (log st)
       end.
Proof.
  induction fuel as [|fuel IH]; intros st; cbn [run_loop].
  - cbn [final_state]. unfold counters_le. repeat split; lia.
  - destruct (body st) as [r st1] eqn:E.
    destruct (loop_body_invariant _ _ _ E) as (Hs & Hi & Ht & Hc).
    destruct r as [[|]|e]; cbn [final_state].
    + destruct (IH st1) as ((Hs1 & Hi1 & Ht1) & Hc1).
      split; [unfold counters_le; repeat split; lia|].
      destruct (loop fuel st1); rewrite <- Hc; exact Hc1.
    + split; [unfold counters_le; repeat split; lia | exact Hc].
    + split; [unfold counters_le; repeat split; lia | exact Hc].
Qed.

(** C9.  A run starts with its three counters at zero, and no tool call,
    no turn and no sequence of turns makes any of them smaller. *)
Theorem counters_monotone :
  (forall user_prompt,
     step (initial_state user_prompt) = 0
     /\ tool_invocations (initial_state user_prompt) = 0
     /\ thinking_segments (initial_state user_prompt) = 0)
  /\ (forall tc st, counters_le st (snd (handle_one tc st)))
  /\ (forall st, counters_le st (snd (body st)))
  /\ (forall fuel st, counters_le st (final_state (loop fuel st))).
Proof.
  split; [|split; [|split]].
  - intros user_prompt. repeat split.
  - intros tc st. unfold counters_le.
    destruct (result_of tc) as [r|e] eqn:E.
    + rewrite (handle_tool_call_ok _ _ _ E).
      cbn [snd record_tool_result step tool_invocations thinking_segments].
      repeat split; lia.
    + destruct (handle_tool_call_raise _ _ st E) as (st' & -> & _ & _ & Hs & Ht & Hi).
      cbn [snd]. repeat split; lia.
  - intros st. destruct (body st) as [r st'] eqn:E.
    destruct (loop_body_invariant _ _ _ E) as (Hs & Hi & Ht & _).
    cbn [snd]. unfold counters_le. repeat split; lia.
  - intros fuel st. exact (proj1 (run_loop_invariant fuel st)).
Qed.


(** C3 (as amended).  When no response after the first has tool calls,
    the loop ends in its first or second turn: in the first when the
    first response has no tool calls, in the second when the first turn
    handled its tool calls. *)
Theorem terminates_within_two_turns (user_prompt : string) :
  (forall n history response,
     1 < n ->
     endpoint n history = Some response ->
     truthy (msg_tool_calls (resp_message response)) = false) ->
  forall fuel,
    2 <= fuel ->
    match loop fuel (initial_state user_prompt) with
    | OutOfFuel _ => False
    | Finished st | Aborted _ st => 1 <= step st <= 2
    end
    /\ (forall response,
          endpoint 1 (messages (initial_state user_prompt)) = Some response ->
          truthy (msg_tool_calls (resp_message response)) = false ->
          step (final_state (loop fuel (initial_state user_prompt))) = 1)
    /\ (forall st,
          body (initial_state user_prompt) = (Ok true, st) ->
          step (final_state (loop fuel (initial_state user_prompt))) = 2).
Proof.
  intros Hlater fuel Hfuel.
  destruct fuel as [|fuel1]; [lia|].
  set (st0 := initial_state user_prompt).
  assert (Hsecond : forall st1,
             step st1 = 1 ->
             match loop fuel1 st1 with
             | OutOfFuel _ => False
             | Finished st | Aborted _ st => step st = 2
             end).
  { intros st1 Hst1. destruct fuel1 as [|fuel]; [lia|]. cbn [run_loop].
    destruct (body st1) as [r st2] eqn:E2.
    rewrite loop_body_unfold, Hst1 in E2.
    destruct (endpoint 2 (messages st1)) as [response|] eqn:Hresp.
    - rewrite (Hlater 2 _ _ ltac:(lia) Hresp) in E2.
      destruct (calc_cost _ _); injection E2 as <- <-;
        unfold log_completion, begin_turn; cbn [step]; lia.
    - injection E2 as <- <-. cbn [incr_step step]. lia. }
  cbn [run_loop].
  destruct (body st0) as [r st1] eqn:E1.
  destruct (loop_body_invariant _ _ _ E1) as (Hs1 & _).
  change (step st0) with 0 in Hs1.
  split; [|split].
  - destruct r as [[|]|e]; try lia.
    specialize (Hsecond st1 Hs1).
    destruct (loop fuel1 st1); [lia | lia | contradiction].
  - intros response Hresp Hfalse.
    rewrite loop_body_unfold in E1. change (S (step st0)) with 1 in E1.
    rewrite Hresp, Hfalse in E1.
    destruct (calc_cost _ _); injection E1 as <- <-; cbn [final_state];
      unfold log_completion, begin_turn; cbn [step]; reflexivity.
  - intros st E. injection E as -> <-.
    specialize (Hsecond st1 Hs1).
    destruct (loop fuel1 st1); cbn [final_state];
      [exact Hsecond | exact Hsecond | contradiction].
Qed.

End ConversationProperties.

(** ** The properties at concrete inputs *)

Lemma tool_messages_in_order_witness :
  exists st',
    Sample.body Sample.two_turn_script (initial_state "hello") = (Ok true, st')
    /\ messages st'
       = (messages (initial_state "hello")
          ++ assistant_record
               {| msg_content := None;
                  msg_tool_calls := Some [Sample.colors_call];
                  msg_reasoning_details := Some [Some "plan"] |}
             :: tool_messages [Sample.colors_call]
                  [get_design_tokens Sample.design_system_md "colors"])%list
    /\ List.length
         (tool_messages [Sample.colors_call]
            [get_design_tokens Sample.design_system_md "colors"])
       = List.length [Sample.colors_call].
Proof.
  apply (tool_messages_in_order Sample.json_loads
           (Sample.scripted Sample.two_turn_script)
           Sample.design_system_md Sample.component_specs_md
           Sample.code_patterns_md (initial_state "hello")
           {| resp_message :=
                {| msg_content := None;
                   msg_tool_calls := Some [Sample.colors_call];
                   msg_reasoning_details := Some [Some "plan"] |};
              resp_usage := None |}
           [Sample.colors_call]
           [get_design_tokens Sample.design_system_md "colors"]).
  - reflexivity.
  - reflexivity.
  - intros H; discriminate H.
  - constructor; [vm_compute; reflexivity | constructor].
Defined.

Lemma unknown_tool_is_fatal_witness :
  exists e st' k results,
    Sample.body Sample.unknown_tool_script (initial_state "hello")
    = (Raise e, st')
    /\ (forall fuel,
          Sample.loop Sample.unknown_tool_script (S fuel) (initial_state "hello")
          = Aborted e st')
    /\ k <= 1
    /\ Forall2 (fun tc r => Sample.result_of tc = Ok r)
         (firstn k [Sample.colors_call]) results
    /\ messages st'
       = (messages (initial_state "hello")
          ++ assistant_record
               {| msg_content := None;
                  msg_tool_calls :=
                    Some [Sample.colors_call; Sample.weather_call;
                          Sample.button_call];
                  msg_reasoning_details := Some [Some "plan"] |}
             :: tool_messages (firstn k [Sample.colors_call]) results)%list
    /\ (k = 1 ->
        e = JSONDecodeError
        \/ e = RuntimeError (no_handler_message "get_weather")).
Proof.
  apply (unknown_tool_is_fatal Sample.json_loads
           (Sample.scripted Sample.unknown_tool_script)
           Sample.design_system_md Sample.component_specs_md
           Sample.code_patterns_md (initial_state "hello")
           {| resp_message :=
                {| msg_content := None;
                   msg_tool_calls :=
                     Some [Sample.colors_call; Sample.weather_call;
                           Sample.button_call];
                   msg_reasoning_details := Some [Some "plan"] |};
              resp_usage := None |}
           [Sample.colors_call] [Sample.button_call] Sample.weather_call).
  - reflexivity.
  - reflexivity.
  - vm_compute; reflexivity.
Defined.

Lemma empty_arguments_decode_witness :
  decode_arguments Sample.json_loads None = Ok (JObj [])
  /\ decode_arguments Sample.json_loads (Some EmptyString) = Ok (JObj []).
Proof.
  apply (empty_arguments_decode Sample.json_loads).
  vm_compute; reflexivity.
Defined.


Lemma two_turn_script_later_responses (n : nat) (history : list history_message)
  (response : chat_response) :
  1 < n ->
  Sample.scripted Sample.two_turn_script n history = Some response ->
  truthy (msg_tool_calls (resp_message response)) = false.
Proof.
  intros Hn. destruct n as [|[|[|n]]]; try lia; unfold Sample.scripted; simpl.
  - intros H; injection H as <-. reflexivity.
  - destruct n; discriminate.
Defined.

Lemma terminates_within_two_turns_witness :
  step (final_state
          (Sample.loop Sample.two_turn_script 2 (initial_state "hello"))) = 2.
Proof.
  apply (proj2 (proj2 (terminates_within_two_turns Sample.json_loads
                         (Sample.scripted Sample.two_turn_script)
                         Sample.design_system_md Sample.component_specs_md
                         Sample.code_patterns_md "hello"
                         two_turn_script_later_responses 2 (le_n 2)))
           (snd (Sample.body Sample.two_turn_script (initial_state "hello")))).
  vm_compute; reflexivity.
Defined.

(** C3 as stated fails: no response of the script after the first has
    tool calls, and the loop ends in its second turn, not in its first. *)
Lemma two_turns_not_one :
  (forall n history response,
     1 < n ->
     Sample.scripted Sample.two_turn_script n history = Some response ->
     truthy (msg_tool_calls (resp_message response)) = false)
  /\ exists st,
       Sample.loop Sample.two_turn_script 5 (initial_state "hello") = Finished st
       /\ step st = 2
       /\ step st <> 1.
Proof.
  split; [exact two_turn_script_later_responses|].
  eexists. split; [vm_compute; reflexivity|].
  split; [reflexivity | discriminate].
Qed.

(** The exception that C7 does not list: a token count beyond the range
    of a float makes [calc_cost] raise after the [completion] record is
    written. *)
Lemma completion_then_overflow :
  exists st,
    Sample.run [Sample.final_turn "Brief." (Some Sample.huge_usage)] 5
    = Aborted OverflowError st
    /\ completions (log st) = 1.
Proof. eexists. split; vm_compute; reflexivity. Qed.

(** * Further properties *)

(** ** The section dictionary *)

Lemma lower_char_idempotent (c : ascii) :
  Py.lower_char (Py.lower_char c) = Py.lower_char c.
Proof.
  destruct c as [[|] [|] [|] [|] [|] [|] [|] [|]]; reflexivity.
Qed.

Lemma lower_idempotent (s : string) : Py.lower (Py.lower s) = Py.lower s.
Proof.
  induction s as [|c s IH]; simpl; [reflexivity|].
  now rewrite lower_char_idempotent, IH.
Qed.

Lemma prefix_refl (s : string) : String.prefix s s = true.
Proof.
  induction s as [|c s IH]; simpl; [reflexivity|].
  destruct (ascii_dec c c) as [_|ne]; [exact IH | now elim ne].
Qed.

Lemma contains_refl (s : string) : Py.contains s s = true.
Proof.
  destruct s as [|c s]; [reflexivity|].
  change (String.prefix (String c s) (String c s)
          || Py.contains (String c s) s = true).
  now rewrite prefix_refl.
Qed.

Section DictFacts.

Context {V : Type}.

Lemma set_keys (k : string) (v : V) (d : list (string * V)) :
  Dict.keys (Dict.set k v d)
  = if in_dec string_dec k (Dict.keys d) then Dict.keys d
    else (Dict.keys d ++ [k])%list.
Proof.
  induction d as [|[k' v'] d IH]; simpl; [reflexivity|].
  destruct (String.eqb_spec k' k) as [E|ne].
  - subst k'. simpl.
    destruct (string_dec k k) as [e|n]; [reflexivity | now elim n].
  - simpl. rewrite IH.
    destruct (string_dec k' k) as [e|n]; [now elim ne|].
    destruct (in_dec string_dec k (Dict.keys d)); reflexivity.
Qed.

End DictFacts.

Lemma setdefault_append_keys {A : Type} (k : string) (x : A)
  (d : list (string * list A)) :
  Dict.keys (Dict.setdefault_append k x d)
  = if in_dec string_dec k (Dict.keys d) then Dict.keys d
    else (Dict.keys d ++ [k])%list.
Proof.
  induction d as [|[k' v'] d IH]; simpl; [reflexivity|].
  destruct (String.eqb_spec k' k) as [E|ne].
  - subst k'. simpl.
    destruct (string_dec k k) as [e|n]; [reflexivity | now elim n].
  - simpl. rewrite IH.
    destruct (string_dec k' k) as [e|n]; [now elim ne|].
    destruct (in_dec string_dec k (Dict.keys d)); reflexivity.
Qed.

(** What a dictionary update does to a property of the list of keys
    that holds for longer lists when the new key is fresh and fine. *)
Lemma keys_step (P : list string -> Prop) (k : string) (keys : list string) :
  P keys ->
  (~ In k keys -> P (keys ++ [k])%list) ->
  P (if in_dec string_dec k keys then keys else (keys ++ [k])%list).
Proof. intros H Hnew. destruct (in_dec string_dec k keys); auto. Qed.

Lemma NoDup_snoc (k : string) (keys : list string) :
  NoDup keys -> ~ In k keys -> NoDup (keys ++ [k])%list.
Proof.
  intros Hnd Hin. induction Hnd as [|x l Hx Hnd IH]; simpl.
  - constructor; [intros [] | constructor].
  - constructor.
    + rewrite in_app_iff. intros [H|[H|[]]]; [now apply Hx|].
      apply Hin. now left.
    + apply IH. intros H; apply Hin; now right.
Qed.

Local Abbreviation lower_keys keys := (Forall (fun k => Py.lower k = k) keys).

Lemma lower_keys_snoc (k : string) (keys : list string) :
  lower_keys keys -> Py.lower k = k -> lower_keys (keys ++ [k])%list.
Proof.
  intros H Hk. apply Forall_app. split; [exact H | now constructor].
Qed.

Lemma collect_sections_keys (lines : list string) :
  forall current_key sections,
    Py.lower current_key = current_key ->
    NoDup (Dict.keys sections) ->
    lower_keys (Dict.keys sections) ->
    NoDup (Dict.keys (collect_sections lines current_key sections))
    /\ lower_keys (Dict.keys (collect_sections lines current_key sections)).
Proof.
  induction lines as [|line lines IH]; intros current_key sections Hk Hnd Hlow;
    cbn [collect_sections]; [now split|].
  destruct (Py.startswith line "## ").
  - apply IH.
    + apply lower_idempotent.
    + rewrite set_keys. apply keys_step; [exact Hnd | now apply NoDup_snoc].
    + rewrite set_keys. apply keys_step; [exact Hlow|].
      intros _. apply lower_keys_snoc; [exact Hlow | apply lower_idempotent].
  - apply IH.
    + exact Hk.
    + rewrite setdefault_append_keys.
      apply keys_step; [exact Hnd | now apply NoDup_snoc].
    + rewrite setdefault_append_keys. apply keys_step; [exact Hlow|].
      intros _. now apply lower_keys_snoc.
Qed.

Lemma finish_sections_keys (sections : list (string * list string)) :
  NoDup (Dict.keys sections) ->
  lower_keys (Dict.keys sections) ->
  NoDup (Dict.keys (finish_sections sections))
  /\ lower_keys (Dict.keys (finish_sections sections))
  /\ forall k, In k (Dict.keys (finish_sections sections)) ->
               In k (Dict.keys sections).
Proof.
  induction sections as [|[key value] sections IH]; simpl; intros Hnd Hlow.
  - repeat split; [constructor | constructor | intros k []].
  - inversion Hnd as [|? ? Hkey Hnd']; subst.
    inversion Hlow as [|? ? Hk Hlow']; subst.
    destruct (IH Hnd' Hlow') as (IHnd & IHlow & IHin).
    destruct value as [|line value].
    + repeat split; [exact IHnd | exact IHlow |].
      intros k Hin. right. now apply IHin.
    + simpl. repeat split.
      * constructor; [|exact IHnd]. intros Hin. apply Hkey. now apply IHin.
      * constructor; [exact Hk | exact IHlow].
      * intros k [->|Hin]; [now left | right; now apply IHin].
Qed.

Lemma load_sections_keys (content : string) :
  NoDup (Dict.keys (_load_markdown_sections content))
  /\ Forall (fun key => Py.lower key = key)
       (Dict.keys (_load_markdown_sections content)).
Proof.
  unfold _load_markdown_sections.
  destruct (collect_sections_keys (Py.splitlines content) "introduction"
              (Dict.set "introduction" [] []))
    as (Hnd & Hlow).
  - reflexivity.
  - simpl. constructor; [intros [] | constructor].
  - simpl. constructor; [reflexivity | constructor].
  - destruct (finish_sections_keys _ Hnd Hlow) as (H1 & H2 & _).
    split; assumption.
Qed.

(** X1.  The dictionary that [_load_markdown_sections] returns has no
    duplicate key, and every key is in lower case. *)
Theorem sections_keys_distinct_lower (content : string) :
  NoDup (Dict.keys (_load_markdown_sections content))
  /\ Forall (fun key => Py.lower key = key)
       (Dict.keys (_load_markdown_sections content)).
Proof. exact (load_sections_keys content). Qed.

(** ** The three lookups, case by case *)

Lemma design_tokens_loop_spec (normalized : string)
  (items : list (string * string)) :
  (exists before key value after,
     items = (before ++ (key, value) :: after)%list
     /\ forallb (misses_key normalized) before = true
     /\ Py.contains normalized key = true
     /\ design_tokens_loop normalized items
        = Some (Json.dumps (JObj [("section", JStr key);
                                  ("tokens", JStr (Py.take 1200 value))])))
  \/ (forallb (misses_key normalized) items = true
      /\ design_tokens_loop normalized items = None).
Proof.
  induction items as [|[key value] items IH]; [right; now split|].
  cbn [design_tokens_loop forallb]. unfold misses_key at 2; cbn [fst].
  destruct (Py.contains normalized key) eqn:Hkey.
  - left. exists [], key, value, items. repeat split; assumption.
  - destruct IH as [(before & k & v & after & -> & Hb & Hk & E)|(Hmiss & E)].
    + left. exists ((key, value) :: before), k, v, after.
      repeat split; try assumption.
      cbn [forallb]. unfold misses_key at 1; cbn [fst]. now rewrite Hkey.
    + right. now split.
Qed.

Lemma pattern_loop_spec (normalized : string) (items : list (string * string)) :
  (exists before key value after,
     items = (before ++ (key, value) :: after)%list
     /\ forallb (misses_key_and_text normalized) before = true
     /\ Py.contains normalized key || Py.contains normalized (Py.lower value)
        = true
     /\ pattern_loop normalized items
        = Some (Json.dumps (JObj [("topic", JStr key);
                                  ("guidance", JStr (Py.take 1600 value))])))
  \/ (forallb (misses_key_and_text normalized) items = true
      /\ pattern_loop normalized items = None).
Proof.
  induction items as [|[key value] items IH]; [right; now split|].
  cbn [pattern_loop forallb]. unfold misses_key_and_text at 2; cbn [fst snd].
  destruct (Py.contains normalized key || Py.contains normalized (Py.lower value))
    eqn:Hkey.
  - left. exists [], key, value, items. repeat split; assumption.
  - destruct IH as [(before & k & v & after & -> & Hb & Hk & E)|(Hmiss & E)].
    + left. exists ((key, value) :: before), k, v, after.
      repeat split; try assumption.
      cbn [forallb]. unfold misses_key_and_text at 1; cbn [fst snd].
      now rewrite Hkey.
    + right. now split.
Qed.

Lemma component_loop_spec (normalized : string) (blocks : list string) :
  (exists before after,
     blocks = (before ++ "" :: after)%list
     /\ forallb (misses_block normalized) before = true
     /\ component_loop normalized blocks = Raise ValueError)
  \/ (exists before block header body after,
        blocks = (before ++ block :: after)%list
        /\ forallb (misses_block normalized) before = true
        /\ Py.splitlines block = header :: body
        /\ header <> ""
        /\ Py.startswith (Py.lower (Py.strip header)) normalized = true
        /\ component_loop normalized blocks
           = Ok (Some (Json.dumps
                         (JObj [("component", JStr (Py.strip header));
                                ("spec",
                                 JStr (Py.take 1600
                                         (Py.strip (Py.join newline body))))]))))
  \/ (forallb (misses_block normalized) blocks = true
      /\ component_loop normalized blocks = Ok None).
Proof.
  induction blocks as [|block blocks IH]; [right; right; now split|].
  cbn [component_loop forallb]. unfold misses_block at 3.
  destruct (Py.splitlines block) as [|header body] eqn:Hlines.
  - left. exists [], blocks. rewrite (splitlines_nil _ Hlines). now repeat split.
  - assert (Hskip : forall before,
               forallb (misses_block normalized) before = true ->
               misses_block normalized block = true ->
               forallb (misses_block normalized) (block :: before) = true).
    { intros before Hb Hm. cbn [forallb]. now rewrite Hm, Hb. }
    assert (Hcases :
              header = ""
              \/ (header <> ""
                  /\ Py.startswith (Py.lower (Py.strip header)) normalized = true)
              \/ (header <> ""
                  /\ Py.startswith (Py.lower (Py.strip header)) normalized = false)).
    { destruct header as [|c header]; [now left|].
      destruct (Py.startswith _ normalized); [right; left | right; right];
        split; congruence. }
    destruct Hcases as [->|[(Hne & Hstart)|(Hne & Hstart)]].
    + assert (Hm : misses_block normalized block = true)
        by (unfold misses_block; now rewrite Hlines).
      destruct IH as [(before & after & -> & Hb & E)
                     |[(before & b & h & bd & after & -> & Hb & Hl & Hn & Hs & E)
                      |(Hb & E)]].
      * left. exists (block :: before), after. repeat split; auto.
      * right; left. exists (block :: before), b, h, bd, after.
        repeat split; auto.
      * right; right. now split.
    + right; left. exists [], block, header, body, blocks.
      destruct header as [|c header]; [congruence|].
      rewrite Hstart. now repeat split.
    + assert (Hm : misses_block normalized block = true).
      { unfold misses_block. rewrite Hlines.
        destruct header as [|c header]; [reflexivity|]. now rewrite Hstart. }
      destruct header as [|c header]; [congruence|]. rewrite Hstart.
      destruct IH as [(before & after & -> & Hb & E)
                     |[(before & b & h & bd & after & -> & Hb & Hl & Hn & Hs & E)
                      |(Hb & E)]].
      * left. exists (block :: before), after. repeat split; auto.
      * right; left. exists (block :: before), b, h, bd, after.
        repeat split; auto.
      * right; right. now split.
Qed.

(** X2.  [get_design_tokens] answers with the first section whose key
    contains the lower-cased category, giving at most 1200 characters of
    its text, and with the ["not_found"] payload when no key contains
    it. *)
Theorem get_design_tokens_cases (doc category : string) :
  (exists before key value after,
     _load_markdown_sections doc = (before ++ (key, value) :: after)%list
     /\ forallb (misses_key (Py.lower category)) before = true
     /\ Py.contains (Py.lower category) key = true
     /\ get_design_tokens doc category
        = Json.dumps (JObj [("section", JStr key);
                            ("tokens", JStr (Py.take 1200 value))])
     /\ String.length (Py.take 1200 value) <= 1200)
  \/ (forallb (misses_key (Py.lower category)) (_load_markdown_sections doc)
      = true
      /\ get_design_tokens doc category
         = Json.dumps
             (JObj [("section", JStr "not_found");
                    ("tokens",
                     JStr (design_tokens_not_found category
                             (_load_markdown_sections doc)))])).
Proof.
  unfold get_design_tokens.
  destruct (design_tokens_loop_spec (Py.lower category)
              (_load_markdown_sections doc))
    as [(before & key & value & after & E & Hb & Hk & ->)|(Hmiss & ->)].
  - left. exists before, key, value, after.
    repeat split; try assumption. apply take_length.
  - right. now split.
Qed.

(** X3.  [get_pattern_guidance] answers with the first section whose key
    or lower-cased text contains the lower-cased topic, giving at most
    1600 characters of its text, and with the fixed message when there
    is none. *)
Theorem get_pattern_guidance_cases (doc topic : string) :
  (exists before key value after,
     _load_markdown_sections doc = (before ++ (key, value) :: after)%list
     /\ forallb (misses_key_and_text (Py.lower topic)) before = true
     /\ Py.contains (Py.lower topic) key
        || Py.contains (Py.lower topic) (Py.lower value) = true
     /\ get_pattern_guidance doc topic
        = Json.dumps (JObj [("topic", JStr key);
                            ("guidance", JStr (Py.take 1600 value))])
     /\ String.length (Py.take 1600 value) <= 1600)
  \/ (forallb (misses_key_and_text (Py.lower topic))
        (_load_markdown_sections doc) = true
      /\ get_pattern_guidance doc topic
         = Json.dumps (JObj [("topic", JStr topic);
                             ("guidance", JStr "No matching pattern found.")])).
Proof.
  unfold get_pattern_guidance.
  destruct (pattern_loop_spec (Py.lower topic) (_load_markdown_sections doc))
    as [(before & key & value & after & E & Hb & Hk & ->)|(Hmiss & ->)].
  - left. exists before, key, value, after.
    repeat split; try assumption. apply take_length.
  - right. now split.
Qed.

(** X4.  Every key of the document is a valid argument: given a key that
    the ["not_found"] message would list, [get_design_tokens] answers
    with a section whose key contains it, and [get_pattern_guidance]
    with a section whose key or lower-cased text contains it, which can
    be an earlier section that only mentions the key.  Neither reaches
    its not-found return. *)
Theorem listed_key_is_found (doc key : string) :
  In key (Dict.keys (_load_markdown_sections doc)) ->
  (exists k v,
     In (k, v) (_load_markdown_sections doc)
     /\ Py.contains key k = true
     /\ get_design_tokens doc key
        = Json.dumps (JObj [("section", JStr k);
                            ("tokens", JStr (Py.take 1200 v))]))
  /\ (exists k v,
        In (k, v) (_load_markdown_sections doc)
        /\ Py.contains key k || Py.contains key (Py.lower v) = true
        /\ get_pattern_guidance doc key
           = Json.dumps (JObj [("topic", JStr k);
                               ("guidance", JStr (Py.take 1600 v))])).
Proof.
  intros Hin.
  assert (Hlow : Py.lower key = key).
  { destruct (load_sections_keys doc) as (_ & Hall).
    rewrite Forall_forall in Hall. now apply Hall. }
  apply in_map_iff in Hin. destruct Hin as ([k0 v0] & Hk0 & Hin0).
  cbn [fst] in Hk0. subst k0.
  split.
  - unfold get_design_tokens. rewrite Hlow.
    destruct (design_tokens_loop_spec key (_load_markdown_sections doc))
      as [(before & k & v & after & E & Hb & Hk & ->)|(Hmiss & _)].
    + exists k, v. repeat split; [|exact Hk].
      rewrite E. apply in_or_app. right. now left.
    + rewrite forallb_forall in Hmiss. specialize (Hmiss _ Hin0).
      unfold misses_key in Hmiss; cbn [fst] in Hmiss.
      now rewrite contains_refl in Hmiss.
  - unfold get_pattern_guidance. rewrite Hlow.
    destruct (pattern_loop_spec key (_load_markdown_sections doc))
      as [(before & k & v & after & E & Hb & Hk & ->)|(Hmiss & _)].
    + exists k, v. repeat split; [|exact Hk].
      rewrite E. apply in_or_app. right. now left.
    + rewrite forallb_forall in Hmiss. specialize (Hmiss _ Hin0).
      unfold misses_key_and_text in Hmiss; cbn [fst snd] in Hmiss.
      now rewrite contains_refl in Hmiss.
Qed.

Lemma listed_key_is_found_witness :
  (exists k v,
     In (k, v) (_load_markdown_sections Sample.design_system_md)
     /\ Py.contains "spacing" k = true
     /\ get_design_tokens Sample.design_system_md "spacing"
        = Json.dumps (JObj [("section", JStr k);
                            ("tokens", JStr (Py.take 1200 v))]))
  /\ (exists k v,
        In (k, v) (_load_markdown_sections Sample.code_patterns_md)
        /\ Py.contains "naming" k || Py.contains "naming" (Py.lower v) = true
        /\ get_pattern_guidance Sample.code_patterns_md "naming"
           = Json.dumps (JObj [("topic", JStr k);
                               ("guidance", JStr (Py.take 1600 v))])).
Proof.
  split.
  - apply (proj1 (listed_key_is_found Sample.design_system_md "spacing"
                    ltac:(vm_compute; right; right; left; reflexivity))).
  - apply (proj2 (listed_key_is_found Sample.code_patterns_md "naming"
                    ltac:(vm_compute; right; left; reflexivity))).
Defined.

(** X5.  [get_component_spec] goes through the blocks in order: it
    raises [ValueError] at an empty block, answers with the first block
    whose stripped, lower-cased header starts with the normalised
    argument (at most 1600 characters of its body), and answers with the
    fixed message when it passes every block. *)
Theorem get_component_spec_cases (doc component : string) :
  let normalized := Py.lower (Py.strip component) in
  (exists before after,
     Py.split "## " doc = (before ++ "" :: after)%list
     /\ forallb (misses_block normalized) before = true
     /\ get_component_spec doc component = Raise ValueError)
  \/ (exists before block header body after,
        Py.split "## " doc = (before ++ block :: after)%list
        /\ forallb (misses_block normalized) before = true
        /\ Py.splitlines block = header :: body
        /\ header <> ""
        /\ Py.startswith (Py.lower (Py.strip header)) normalized = true
        /\ get_component_spec doc component
           = Ok (Json.dumps
                   (JObj [("component", JStr (Py.strip header));
                          ("spec",
                           JStr (Py.take 1600
                                   (Py.strip (Py.join newline body))))]))
        /\ String.length (Py.take 1600 (Py.strip (Py.join newline body)))
           <= 1600)
  \/ (forallb (misses_block normalized) (Py.split "## " doc) = true
      /\ get_component_spec doc component
         = Ok (Json.dumps
                 (JObj [("component", JStr component);
                        ("spec",
                         JStr "Component not found in specs document.")]))).
Proof.
  cbv zeta. unfold get_component_spec.
  destruct (component_loop_spec (Py.lower (Py.strip component))
              (Py.split "## " doc))
    as [(before & after & E & Hb & ->)
       |[(before & b & h & bd & after & E & Hb & Hl & Hn & Hs & ->)
        |(Hb & ->)]].
  - left. exists before, after. now repeat split.
  - right; left. exists before, b, h, bd, after.
    repeat split; try assumption. apply take_length.
  - right; right. now split.
Qed.

Lemma split_heading_first (rest : string) :
  Py.split "## " ("## " ++ rest) = "" :: Py.split "## " rest.
Proof.
  unfold Py.split.
  assert (H : String.prefix "## " ("## " ++ rest) = true)
    by apply prefix_append.
  change ("## " ++ rest) with (String "#" (String "#" (String " " rest))) in *.
  cbn [Py.split_from]. rewrite H.
  cbn [String.length Nat.sub Py.split_from].
  destruct (Py.split_from "## " 0 rest) as [p ps]. reflexivity.
Qed.

(** X6.  On a document that starts with a heading, [get_component_spec]
    raises [ValueError] whatever the argument: the text before the first
    ["## "] is an empty block, and it is unpacked before any header is
    compared. *)
Theorem component_spec_heading_first (rest component : string) :
  get_component_spec ("## " ++ rest) component = Raise ValueError.
Proof.
  unfold get_component_spec. rewrite split_heading_first. reflexivity.
Qed.

(** X7.  When no block of the document is empty, [get_component_spec]
    does not raise. *)
Theorem component_spec_total (doc component : string) :
  Forall (fun block => block <> "") (Py.split "## " doc) ->
  exists payload, get_component_spec doc component = Ok payload.
Proof.
  intros Hall. unfold get_component_spec.
  destruct (component_loop_spec (Py.lower (Py.strip component))
              (Py.split "## " doc))
    as [(before & after & E & _)
       |[(? & ? & ? & ? & ? & _ & _ & _ & _ & _ & ->)|(_ & ->)]].
  - rewrite Forall_forall in Hall. exfalso.
    apply (Hall ""); [|reflexivity].
    rewrite E. apply in_or_app. right. now left.
  - eauto.
  - eauto.
Qed.

Lemma component_spec_total_witness :
  exists payload,
    get_component_spec Sample.component_specs_md "tooltip" = Ok payload.
Proof.
  apply (component_spec_total Sample.component_specs_md "tooltip").
  vm_compute. repeat constructor; discriminate.
Defined.

(** ** Runs of the conversation loop *)

Lemma count_app {A : Type} (test : A -> bool) (l l' : list A) :
  count test (l ++ l')%list = count test l + count test l'.
Proof. unfold count. now rewrite filter_app, length_app. Qed.

Lemma tool_messages_count (tcs : list tool_call) (results : list string) :
  count is_tool_message (tool_messages tcs results)
  = List.length (tool_messages tcs results).
Proof.
  revert results; induction tcs as [|tc tcs IH]; intros [|r results];
    try reflexivity.
  unfold count in *. simpl. now rewrite IH.
Qed.

Lemma tool_events_count (n : nat) (tcs : list tool_call) (results : list string) :
  count is_tool_result (tool_events n tcs results)
  = List.length (tool_messages tcs results)
  /\ count is_assistant_event (tool_events n tcs results) = 0
  /\ count is_thought (tool_events n tcs results) = 0
  /\ count is_completion (tool_events n tcs results) = 0
  /\ Forall (fun e => event_step e = n) (tool_events n tcs results).
Proof.
  assert (Hnil : count is_tool_result [] = 0
                 /\ count is_assistant_event [] = 0
                 /\ count is_thought [] = 0
                 /\ count is_completion [] = 0
                 /\ Forall (fun e => event_step e = n) [])
    by (repeat split; constructor).
  revert results; induction tcs as [|tc tcs IH]; intros [|r results];
    cbn [tool_events tool_messages].
  - exact Hnil.
  - exact Hnil.
  - exact Hnil.
  - destruct (IH results) as (H1 & H2 & H3 & H4 & H5).
    unfold count in *. cbn. rewrite H1, H2, H3, H4.
    split; [|split; [|split; [|split]]]; try reflexivity.
    now constructor.
Qed.

Lemma record_tool_results_log (tcs : list tool_call) (results : list string) :
  forall st,
    log (record_tool_results st tcs results)
    = (log st ++ tool_events (step st) tcs results)%list
    /\ tool_invocations (record_tool_results st tcs results)
       = tool_invocations st + List.length (tool_messages tcs results).
Proof.
  revert results; induction tcs as [|tc tcs IH]; intros [|r results] st;
    cbn [record_tool_results tool_events tool_messages List.length];
    try (rewrite app_nil_r; split; [reflexivity | lia]).
  destruct (IH results (record_tool_result st tc r)) as (Hl & Hi).
  rewrite Hl, Hi. cbn [record_tool_result log step tool_invocations].
  rewrite <- app_assoc. split; [reflexivity | lia].
Qed.

Lemma count_cons {A : Type} (test : A -> bool) (x : A) (l : list A) :
  count test (x :: l) = (if test x then 1 else 0) + count test l.
Proof. unfold count. simpl. now destruct (test x). Qed.

Lemma well_formed_append (h h2 : list history_message) :
  forall pending,
    well_formed_from pending h = true ->
    well_formed h2 = true ->
    well_formed_from pending (h ++ h2)%list = true.
Proof.
  unfold well_formed.
  induction h as [|m h IH]; intros pending Hh Hh2; cbn [app].
  - destruct pending; [exact Hh2 | discriminate Hh].
  - cbn [well_formed_from] in *.
    destruct pending as [|tc pending].
    + destruct m as [c|c|c [tcs|]|id c]; try discriminate; now apply IH.
    + destruct m as [c|c|c tcs|id c]; try discriminate.
      apply andb_true_iff in Hh. destruct Hh as (Hid & Hrest).
      rewrite Hid. now apply IH.
Qed.

Lemma well_formed_tool_messages (tcs : list tool_call) (results : list string) :
  List.length tcs = List.length results ->
  well_formed_from tcs (tool_messages tcs results) = true.
Proof.
  revert results; induction tcs as [|tc tcs IH]; intros [|r results] Hlen;
    try discriminate; [reflexivity|].
  cbn [tool_messages well_formed_from].
  rewrite String.eqb_refl. apply IH. simpl in Hlen. lia.
Qed.

Lemma tool_messages_full (tcs : list tool_call) (results : list string) :
  List.length tcs = List.length results ->
  List.length (tool_messages tcs results) = List.length tcs.
Proof.
  revert results; induction tcs as [|tc tcs IH]; intros [|r results] Hlen;
    try discriminate; [reflexivity|].
  simpl. f_equal. apply IH. simpl in Hlen. lia.
Qed.

Section RunProperties.

Variable json_loads : string -> option json.
Variable endpoint : nat -> list history_message -> option chat_response.
Variable design_system_md component_specs_md code_patterns_md : string.
Variable getenv : string -> option string.

Local Open Scope list_scope.

Local Abbreviation registry :=
  (TOOL_REGISTRY design_system_md component_specs_md code_patterns_md).
Local Abbreviation result_of :=
  (tool_result json_loads design_system_md component_specs_md code_patterns_md).
Local Abbreviation handle_all :=
  (handle_tool_calls json_loads design_system_md component_specs_md
     code_patterns_md).
Local Abbreviation body :=
  (loop_body json_loads endpoint design_system_md component_specs_md
     code_patterns_md).
Local Abbreviation loop :=
  (run_loop json_loads endpoint design_system_md component_specs_md
     code_patterns_md).

(** The tool calls of a turn either all succeed, or stop at the first
    one that raises. *)
Lemma handle_tool_calls_run (tcs : list tool_call) :
  forall st,
    (exists results,
       Forall2 (fun tc r => result_of tc = Ok r) tcs results
       /\ handle_all tcs st = (Ok tt, record_tool_results st tcs results))
    \/ (exists pre tc post results e st',
          tcs = pre ++ tc :: post
          /\ Forall2 (fun tc r => result_of tc = Ok r) pre results
          /\ result_of tc = Raise e
          /\ handle_all tcs st = (Raise e, st')
          /\ messages st' = messages (record_tool_results st pre results)
          /\ log st' = log (record_tool_results st pre results)
          /\ step st' = step st
          /\ thinking_segments st' = thinking_segments st
          /\ tool_invocations (record_tool_results st pre results)
             <= tool_invocations st').
Proof.
  induction tcs as [|tc tcs IH]; intros st.
  - left. exists []. split; [constructor | reflexivity].
  - rewrite handle_tool_calls_cons.
    destruct (result_of tc) as [r|e] eqn:Hres.
    + rewrite (handle_tool_call_ok _ _ _ _ _ _ _ Hres).
      destruct (IH (record_tool_result st tc r))
        as [(results & Hok & E)
           |(pre & tc' & post & results & e & st' & -> & Hok & He & E & Hm & Hl & Hs & Ht & Hi)].
      * left. exists (r :: results). split; [now constructor | exact E].
      * right. exists (tc :: pre), tc', post, (r :: results), e, st'.
        repeat split; try assumption. now constructor.
    + destruct (handle_tool_call_raise _ _ _ _ _ _ st Hres)
        as (st' & E & Hm & Hl & Hs & Ht & Hi).
      right. exists [], tc, tcs, [], e, st'. rewrite E.
      repeat split; try assumption. constructor.
Qed.

(** X8.  When a tool call of a response raises after the calls before
    it succeeded, the turn and the run end with that exception: the
    history holds the assistant message and the tool messages of the
    earlier calls only, and nothing stands for the failed call or for
    the calls after it. *)
Theorem tool_failure_is_fatal (st : run_state) (response : chat_response)
  (pre post : list tool_call) (tc : tool_call) (results : list string)
  (e : exn) :
  endpoint (S (step st)) (messages st) = Some response ->
  msg_tool_calls (resp_message response) = Some (pre ++ tc :: post) ->
  Forall2 (fun tc r => result_of tc = Ok r) pre results ->
  result_of tc = Raise e ->
  exists st',
    body st = (Raise e, st')
    /\ (forall fuel, loop (S fuel) st = Aborted e st')
    /\ messages st'
       = messages st
         ++ assistant_record (resp_message response) :: tool_messages pre results
    /\ log st'
       = log st
         ++ AssistantEvent (S (step st)) (first_thinking (resp_message response))
              (msg_content (resp_message response)) (pre ++ tc :: post)
            :: tool_events (S (step st)) pre results.
Proof.
  intros Hresp Hcalls Hok He.
  destruct (truthy_payloads _ _ Hcalls) as (Hpay & Htruthy).
  assert (Hstop : forall st0,
             exists st1,
               handle_all (pre ++ tc :: post) st0 = (Raise e, st1)
               /\ messages st1 = messages (record_tool_results st0 pre results)
               /\ log st1 = log (record_tool_results st0 pre results)).
  { clear Hcalls Hpay Htruthy. induction Hok as [|a r pre results Ha _ IH];
      intros st0.
    - destruct (handle_tool_call_raise _ _ _ _ _ _ st0 He)
        as (st1 & E & Hm & Hl & _).
      exists st1. cbn [app]. rewrite handle_tool_calls_cons, E.
      repeat split; assumption.
    - cbn [app]. rewrite handle_tool_calls_cons.
      rewrite (handle_tool_call_ok _ _ _ _ _ _ _ Ha).
      destruct (IH (record_tool_result st0 a r)) as (st1 & E & Hm & Hl).
      exists st1. repeat split; assumption. }
  destruct (Hstop (begin_turn st response)) as (st' & E & Hm & Hl).
  assert (Hbody : body st = (Raise e, st')).
  { rewrite loop_body_unfold, Hresp, Htruthy, Hpay, E; [reflexivity|].
    destruct pre; discriminate. }
  exists st'. split; [exact Hbody|]. split; [|split].
  - intros fuel. cbn [run_loop]. now rewrite Hbody.
  - rewrite Hm.
    destruct (record_tool_results_state pre results (begin_turn st response))
      as (-> & _).
    unfold begin_turn; cbn [messages]. now rewrite <- app_assoc.
  - rewrite Hl.
    destruct (record_tool_results_log pre results (begin_turn st response))
      as (-> & _).
    unfold begin_turn; cbn [log step]. rewrite Hpay. now rewrite <- app_assoc.
Qed.

Lemma falsy_payloads (message : chat_message) :
  truthy (msg_tool_calls message) = false -> payloads_of message = [].
Proof.
  unfold payloads_of. destruct (msg_tool_calls message) as [[|tc tcs]|];
    [reflexivity | discriminate | reflexivity].
Qed.

Lemma truthy_calls (message : chat_message) :
  truthy (msg_tool_calls message) = true ->
  exists tc tcs,
    msg_tool_calls message = Some (tc :: tcs)
    /\ payloads_of message = tc :: tcs.
Proof.
  unfold payloads_of. destruct (msg_tool_calls message) as [[|tc tcs]|];
    try discriminate. intros _. now exists tc, tcs.
Qed.

(** The four ways a turn can go. *)
Lemma turn_cases (st : run_state) (r : result bool) (st' : run_state) :
  body st = (r, st') ->
  (endpoint (S (step st)) (messages st) = None
   /\ r = Raise EndpointError /\ st' = incr_step st)
  \/ (exists response,
        endpoint (S (step st)) (messages st) = Some response
        /\ payloads_of (resp_message response) = []
        /\ (r = Ok false \/ r = Raise OverflowError)
        /\ st' = log_completion (begin_turn st response) response)
  \/ (exists response tc tcs results,
        endpoint (S (step st)) (messages st) = Some response
        /\ payloads_of (resp_message response) = tc :: tcs
        /\ Forall2 (fun tc r => result_of tc = Ok r) (tc :: tcs) results
        /\ r = Ok true
        /\ st' = record_tool_results (begin_turn st response) (tc :: tcs) results)
  \/ (exists response pre tc post results e,
        endpoint (S (step st)) (messages st) = Some response
        /\ payloads_of (resp_message response) = pre ++ tc :: post
        /\ Forall2 (fun tc r => result_of tc = Ok r) pre results
        /\ result_of tc = Raise e
        /\ r = Raise e
        /\ messages st'
           = messages (record_tool_results (begin_turn st response) pre results)
        /\ log st'
           = log (record_tool_results (begin_turn st response) pre results)
        /\ step st' = S (step st)
        /\ thinking_segments st' = thinking_segments (begin_turn st response)
        /\ tool_invocations
             (record_tool_results (begin_turn st response) pre results)
           <= tool_invocations st').
Proof.
  rewrite loop_body_unfold.
  destruct (endpoint (S (step st)) (messages st)) as [response|] eqn:Hresp.
  - destruct (truthy (msg_tool_calls (resp_message response))) eqn:Htruthy.
    + destruct (truthy_calls _ Htruthy) as (tc & tcs & _ & Hpay).
      rewrite Hpay.
      destruct (handle_tool_calls_run (tc :: tcs) (begin_turn st response))
        as [(results & Hok & ->)
           |(pre & tc' & post & results & e & st1 & E & Hok & He & -> & Hm & Hl & Hs & Ht & Hi)].
      * intros H; injection H as <- <-.
        right; right; left. exists response, tc, tcs, results.
        now repeat split.
      * intros H; injection H as <- <-.
        right; right; right. exists response, pre, tc', post, results, e.
        repeat split; try assumption. now rewrite Hpay.
    + intros H. right; left. exists response.
      split; [reflexivity|]. split; [exact (falsy_payloads _ Htruthy)|].
      destruct (calc_cost _ _) as [cost|e] eqn:Ecost; injection H as <- <-.
      * split; [now left | reflexivity].
      * split; [right | reflexivity].
        unfold calc_cost, float_of_int in Ecost.
        repeat match type of Ecost with
               | context [binary_normalize ?a ?b ?c ?d ?f] =>
                   destruct (binary_normalize a b c d f)
               end; try discriminate; injection Ecost as <-; reflexivity.
  - intros H; injection H as <- <-. left. now repeat split.
Qed.

(** A property kept by every turn holds where a run ends. *)
Lemma run_loop_keeps (P : run_state -> Prop) :
  (forall st r st', P st -> body st = (r, st') -> P st') ->
  forall fuel st, P st -> P (final_state (loop fuel st)).
Proof.
  intros Hturn. induction fuel as [|fuel IH]; intros st HP; cbn [run_loop];
    [exact HP|].
  destruct (body st) as [r st'] eqn:E. pose proof (Hturn _ _ _ HP E) as HP'.
  destruct r as [[|]|e]; cbn [final_state]; [now apply IH | exact HP' | exact HP'].
Qed.

(** A property kept by every turn that does not raise holds at the
    start of every turn and at the end of a finished run. *)
Lemma run_loop_keeps_ok (P : run_state -> Prop) :
  (forall st b st', P st -> body st = (Ok b, st') -> P st') ->
  forall fuel st,
    P st ->
    match loop fuel st with
    | Finished st' | OutOfFuel st' => P st'
    | Aborted _ _ => True
    end.
Proof.
  intros Hturn. induction fuel as [|fuel IH]; intros st HP; cbn [run_loop];
    [exact HP|].
  destruct (body st) as [[b|e] st'] eqn:E; [|exact I].
  pose proof (Hturn _ _ _ HP E) as HP'.
  destruct b; [now apply IH | exact HP'].
Qed.

(** The state after the tool calls [tcs] of a turn returned [results]. *)
Lemma tools_state (st : run_state) (response : chat_response)
  (tcs : list tool_call) (results : list string) :
  let st' := record_tool_results (begin_turn st response) tcs results in
  messages st'
  = messages st ++ assistant_record (resp_message response)
                   :: tool_messages tcs results
  /\ log st'
     = log st
       ++ AssistantEvent (S (step st)) (first_thinking (resp_message response))
            (msg_content (resp_message response))
            (payloads_of (resp_message response))
          :: tool_events (S (step st)) tcs results
  /\ step st' = S (step st)
  /\ thinking_segments st'
     = thinking_segments st
       + (if is_thought
               (AssistantEvent (S (step st))
                  (first_thinking (resp_message response))
                  (msg_content (resp_message response))
                  (payloads_of (resp_message response)))
          then 1 else 0)
  /\ tool_invocations st'
     = tool_invocations st + List.length (tool_messages tcs results).
Proof.
  cbv zeta.
  destruct (record_tool_results_state tcs results (begin_turn st response))
    as (Hm & Hs & Ht & _ & _).
  destruct (record_tool_results_log tcs results (begin_turn st response))
    as (Hl & Hi).
  rewrite Hm, Hl, Hs, Ht, Hi.
  unfold begin_turn; cbn [messages log step thinking_segments tool_invocations].
  rewrite <- !app_assoc. cbn [is_thought].
  repeat split. destruct (first_thinking (resp_message response)); lia.
Qed.

(** What a turn adds to the history and to the transcript. *)
Lemma turn_effect (st : run_state) (r : result bool) (st' : run_state) :
  body st = (r, st') ->
  exists ms ls,
    messages st' = messages st ++ ms
    /\ log st' = log st ++ ls
    /\ step st' = S (step st)
    /\ Forall (fun e => event_step e = S (step st)) ls
    /\ count is_tool_result ls = count is_tool_message ms
    /\ thinking_segments st' = thinking_segments st + count is_thought ls
    /\ tool_invocations st + count is_tool_result ls <= tool_invocations st'
    /\ count is_assistant_event ls <= 1
    /\ (forall b,
          r = Ok b ->
          count is_assistant_event ls = 1
          /\ tool_invocations st' = tool_invocations st + count is_tool_result ls
          /\ well_formed ms = true)
    /\ (r = Ok false ->
        exists thinking content usage_payload,
          ls = [AssistantEvent (S (step st)) thinking content [];
                CompletionEvent (S (step st)) content usage_payload]
          /\ ms = [AssistantMessage (str_or content "") None]).
Proof.
  intros Hbody.
  destruct (turn_cases _ _ _ Hbody)
    as [(_ & -> & ->)
       |[(response & _ & Hpay & Hr & ->)
        |[(response & tc & tcs & results & _ & Hpay & Hok & -> & ->)
         |(response & pre & tc & post & results & e & _ & Hpay & Hok & He & -> & Hm & Hl & Hs & Ht & Hi)]]].
  - exists [], []. cbn [incr_step messages log step thinking_segments
                         tool_invocations].
    rewrite !app_nil_r. unfold count; cbn.
    repeat split; try lia; try constructor; discriminate.
  - exists [AssistantMessage (str_or (msg_content (resp_message response)) "") None],
      [AssistantEvent (S (step st)) (first_thinking (resp_message response))
         (msg_content (resp_message response)) [];
       CompletionEvent (S (step st)) (msg_content (resp_message response))
         (resp_usage response)].
    unfold log_completion, begin_turn, assistant_record.
    rewrite Hpay.
    cbn [messages log step thinking_segments tool_invocations].
    rewrite <- app_assoc. unfold count; cbn.
    split; [reflexivity|]. split; [reflexivity|]. split; [reflexivity|].
    split; [repeat constructor|]. split; [reflexivity|].
    split; [destruct (first_thinking (resp_message response)); cbn; lia|].
    split; [lia|]. split; [lia|]. split.
    + intros b _. repeat split; lia.
    + intros _. now eexists _, _, _.
  - destruct (tools_state st response (tc :: tcs) results)
      as (Hm & Hl & Hs & Ht & Hi).
    destruct (tool_events_count (S (step st)) (tc :: tcs) results)
      as (C1 & C2 & C3 & _ & C5).
    assert (Hlen : List.length (tc :: tcs) = List.length results)
      by (clear - Hok; induction Hok; simpl; congruence).
    eexists _, _. split; [exact Hm|]. split; [exact Hl|]. split; [exact Hs|].
    rewrite !count_cons, C1, C2, C3, tool_messages_count.
    unfold assistant_record. rewrite Hpay. cbn [is_tool_result is_tool_message
                                                  is_assistant_event].
    split; [now constructor|]. split; [reflexivity|].
    split; [rewrite Ht, Hpay; lia|]. split; [lia|]. split; [lia|]. split.
    + intros b _. split; [lia|]. split; [lia|].
      unfold well_formed. cbn [well_formed_from].
      now apply well_formed_tool_messages.
    + discriminate.
  - destruct (tools_state st response pre results)
      as (Hm' & Hl' & Hs' & Ht' & Hi').
    destruct (tool_events_count (S (step st)) pre results)
      as (C1 & C2 & C3 & _ & C5).
    eexists _, _. split; [rewrite Hm; exact Hm'|].
    split; [rewrite Hl; exact Hl'|]. split; [exact Hs|].
    rewrite !count_cons, C1, C2, C3, tool_messages_count.
    unfold assistant_record at 1. cbn [is_tool_result is_tool_message
                                         is_assistant_event].
    split; [now constructor|].
    split; [destruct (payloads_of (resp_message response)); reflexivity|].
    split.
    { rewrite Ht. unfold begin_turn; cbn [thinking_segments is_thought].
      destruct (first_thinking (resp_message response)); lia. }
    split; [lia|]. split; [lia|]. split; discriminate.
Qed.

(** X9.  The history sent with every request is one the endpoint
    accepts, and so is the history of a finished run: each assistant
    message with tool calls is followed by one tool message per call,
    with the identifiers of the calls in their order. *)
Theorem history_stays_well_formed (fuel : nat) (user_prompt : string) :
  match loop fuel (initial_state user_prompt) with
  | Finished st | OutOfFuel st => well_formed (messages st) = true
  | Aborted _ _ => True
  end.
Proof.
  apply (run_loop_keeps_ok (fun st => well_formed (messages st) = true));
    [|reflexivity].
  intros st b st' Hwf Hbody.
  destruct (turn_effect _ _ _ Hbody) as (ms & ls & -> & _ & _ & _ & _ & _ & _ & _ & Hok & _).
  destruct (Hok b eq_refl) as (_ & _ & Hms).
  now apply well_formed_append.
Qed.

(** X10.  A run only appends: the history and the transcript it leaves
    start with the history and the transcript it was given. *)
Theorem run_is_append_only (fuel : nat) (st : run_state) :
  exists ms ls,
    messages (final_state (loop fuel st)) = messages st ++ ms
    /\ log (final_state (loop fuel st)) = log st ++ ls.
Proof.
  apply (run_loop_keeps
           (fun st' => exists ms ls,
                messages st' = messages st ++ ms /\ log st' = log st ++ ls)).
  - intros st1 r st2 (ms & ls & Hm & Hl) Hbody.
    destruct (turn_effect _ _ _ Hbody) as (ms' & ls' & Hm' & Hl' & _).
    exists (ms ++ ms'), (ls ++ ls').
    rewrite Hm', Hl', Hm, Hl. now rewrite !app_assoc.
  - exists [], []. now rewrite !app_nil_r.
Qed.

(** X11.  At the start of every turn and at the end of a finished run
    the counters say what was written: the step counter is the number
    of [assistant] records, the tool counter is the number of
    [tool_result] records and of tool messages, the thinking counter is
    the number of [assistant] records with a thought.  In an aborted run
    the counters of the turn and of the tool calls may be one ahead. *)
Theorem counters_match_transcript (fuel : nat) (user_prompt : string) :
  match loop fuel (initial_state user_prompt) with
  | Finished st | OutOfFuel st => counters_agree st
  | Aborted _ st =>
      count is_assistant_event (log st) <= step st
      /\ count is_tool_result (log st) = count is_tool_message (messages st)
      /\ count is_tool_result (log st) <= tool_invocations st
      /\ thinking_segments st = count is_thought (log st)
  end.
Proof.
  assert (Hgen : forall fuel st,
             counters_agree st ->
             match loop fuel st with
             | Finished st' | OutOfFuel st' => counters_agree st'
             | Aborted _ st' =>
                 count is_assistant_event (log st') <= step st'
                 /\ count is_tool_result (log st')
                    = count is_tool_message (messages st')
                 /\ count is_tool_result (log st') <= tool_invocations st'
                 /\ thinking_segments st' = count is_thought (log st')
             end).
  { clear fuel. induction fuel as [|fuel IH]; intros st Hst; cbn [run_loop];
      [exact Hst|].
    destruct (body st) as [r st'] eqn:Hbody.
    destruct (turn_effect _ _ _ Hbody)
      as (ms & ls & Hm & Hl & Hs & _ & Htm & Hth & Hinv & Hone & Hok & _).
    destruct Hst as (A1 & A2 & A3 & A4).
    assert (Hnext : forall b, r = Ok b -> counters_agree st').
    { intros b Hr. destruct (Hok b Hr) as (Ha & Hi & _).
      unfold counters_agree. rewrite Hm, Hl, !count_app. repeat split; lia. }
    destruct r as [[|]|e].
    - apply IH. now apply (Hnext true).
    - now apply (Hnext false).
    - rewrite Hm, Hl, !count_app. repeat split; lia. }
  apply Hgen. unfold counters_agree, count. cbn. repeat split.
Qed.

Lemma sorted_steps_append (l ls : list nat) (n : nat) :
  StronglySorted le l ->
  Forall (fun k => k <= n) l ->
  Forall (fun k => k = S n) ls ->
  StronglySorted le (l ++ ls) /\ Forall (fun k => 1 <= k <= S n) ls.
Proof.
  intros Hsorted Hle Hls. split.
  - induction Hsorted as [|x l Hs IH Hx]; cbn [app].
    + induction Hls as [|y ls -> Hls IH]; constructor; [exact IH|].
      eapply Forall_impl; [|exact Hls]. intros k ->. lia.
    + inversion Hle as [|? ? Hxn Hle']; subst.
      constructor; [now apply IH|].
      apply Forall_app. split; [exact Hx|].
      eapply Forall_impl; [|exact Hls]. intros k ->. lia.
  - eapply Forall_impl; [|exact Hls]. intros k ->. lia.
Qed.

(** X12.  The records of the transcript are in the order of their step
    numbers, which go from 1 to the number of turns. *)
Theorem transcript_is_chronological (fuel : nat) (user_prompt : string) :
  let st := final_state (loop fuel (initial_state user_prompt)) in
  StronglySorted le (map event_step (log st))
  /\ Forall (fun e => 1 <= event_step e <= step st) (log st).
Proof.
  cbv zeta.
  apply (run_loop_keeps
           (fun st => StronglySorted le (map event_step (log st))
                      /\ Forall (fun e => 1 <= event_step e <= step st) (log st)));
    [|split; constructor].
  intros st r st' (Hsorted & Hrange) Hbody.
  destruct (turn_effect _ _ _ Hbody) as (ms & ls & _ & -> & -> & Hls & _).
  destruct (sorted_steps_append (map event_step (log st)) (map event_step ls)
              (step st) Hsorted)
    as (H1 & H2).
  - rewrite Forall_map. eapply Forall_impl; [|exact Hrange]. simpl; lia.
  - now rewrite Forall_map.
  - rewrite map_app. split; [exact H1|].
    apply Forall_app. split.
    + eapply Forall_impl; [|exact Hrange]. simpl; lia.
    + now rewrite Forall_map in H2.
Qed.

Lemma finished_last_turn (fuel : nat) :
  forall st st',
    loop fuel st = Finished st' ->
    exists st1, body st1 = (Ok false, st').
Proof.
  induction fuel as [|fuel IH]; intros st st'; cbn [run_loop]; [discriminate|].
  destruct (body st) as [[[|]|e] st1] eqn:Hbody; try discriminate.
  - apply IH.
  - intros H; injection H as <-. now exists st.
Qed.

(** X13.  A finished run ends its transcript with the [assistant] record
    of the last turn and the [completion] record, both with the final
    step number and the same content, and ends its history with that
    content (the empty text if there is none) as an assistant message
    without tool calls. *)
Theorem finished_run_ends_with_completion (fuel : nat) (st st' : run_state) :
  loop fuel st = Finished st' ->
  exists ls ms thinking content usage_payload,
    log st'
    = ls ++ [AssistantEvent (step st') thinking content [];
             CompletionEvent (step st') content usage_payload]
    /\ messages st' = ms ++ [AssistantMessage (str_or content "") None].
Proof.
  intros Hrun. destruct (finished_last_turn _ _ _ Hrun) as (st1 & Hbody).
  destruct (turn_effect _ _ _ Hbody)
    as (ms & ls & Hm & Hl & Hs & _ & _ & _ & _ & _ & _ & Hlast).
  destruct (Hlast eq_refl) as (thinking & content & usage_payload & -> & ->).
  exists (log st1), (messages st1), thinking, content, usage_payload.
  now rewrite Hs, Hl, Hm.
Qed.

(** X14.  The loop has no bound on its turns: while every response asks
    for tool calls that succeed, it goes on, one step per turn. *)
Theorem loop_has_no_turn_bound :
  (forall n history,
     exists response tcs results,
       endpoint n history = Some response
       /\ msg_tool_calls (resp_message response) = Some tcs
       /\ tcs <> []
       /\ Forall2 (fun tc r => result_of tc = Ok r) tcs results) ->
  forall fuel st,
    exists st', loop fuel st = OutOfFuel st' /\ step st' = step st + fuel.
Proof.
  intros Hend. induction fuel as [|fuel IH]; intros st; cbn [run_loop].
  - exists st. split; [reflexivity | lia].
  - destruct (Hend (S (step st)) (messages st))
      as (response & tcs & results & Hresp & Hcalls & Hne & Hok).
    destruct (truthy_payloads _ _ Hcalls) as (Hpay & Htruthy).
    rewrite loop_body_unfold, Hresp, (Htruthy Hne), Hpay.
    rewrite (handle_tool_calls_ok _ _ _ _ _ _ Hok).
    destruct (IH (record_tool_results (begin_turn st response) tcs results))
      as (st' & -> & Hs).
    exists st'. split; [reflexivity|]. rewrite Hs.
    destruct (record_tool_results_state tcs results (begin_turn st response))
      as (_ & -> & _).
    unfold begin_turn; cbn [step]. lia.
Qed.

(** X15.  When the endpoint fails, the run ends with its exception: the
    turn is counted, and nothing is appended to the history or to the
    transcript. *)
Theorem endpoint_failure_aborts (st : run_state) (fuel : nat) :
  endpoint (S (step st)) (messages st) = None ->
  exists st',
    loop (S fuel) st = Aborted EndpointError st'
    /\ messages st' = messages st
    /\ log st' = log st
    /\ step st' = S (step st).
Proof.
  intros Hnone. exists (incr_step st). cbn [run_loop].
  rewrite loop_body_unfold, Hnone. now repeat split.
Qed.

End RunProperties.

Lemma tool_failure_is_fatal_witness :
  exists st',
    Sample.body Sample.failing_tool_script (initial_state "hello")
    = (Raise TypeError, st')
    /\ (forall fuel,
          Sample.loop Sample.failing_tool_script (S fuel) (initial_state "hello")
          = Aborted TypeError st')
    /\ messages st'
       = (messages (initial_state "hello")
          ++ assistant_record
               {| msg_content := None;
                  msg_tool_calls :=
                    Some [Sample.colors_call; Sample.bare_call;
                          Sample.button_call];
                  msg_reasoning_details := Some [Some "plan"] |}
             :: tool_messages [Sample.colors_call]
                  [get_design_tokens Sample.design_system_md "colors"])%list
    /\ log st'
       = (log (initial_state "hello")
          ++ AssistantEvent 1 "plan" None
               [Sample.colors_call; Sample.bare_call; Sample.button_call]
             :: tool_events 1 [Sample.colors_call]
                  [get_design_tokens Sample.design_system_md "colors"])%list.
Proof.
  apply (tool_failure_is_fatal Sample.json_loads
           (Sample.scripted Sample.failing_tool_script)
           Sample.design_system_md Sample.component_specs_md
           Sample.code_patterns_md (initial_state "hello")
           {| resp_message :=
                {| msg_content := None;
                   msg_tool_calls :=
                     Some [Sample.colors_call; Sample.bare_call;
                           Sample.button_call];
                   msg_reasoning_details := Some [Some "plan"] |};
              resp_usage := None |}
           [Sample.colors_call] [Sample.button_call] Sample.bare_call
           [get_design_tokens Sample.design_system_md "colors"] TypeError).
  - reflexivity.
  - reflexivity.
  - constructor; [vm_compute; reflexivity | constructor].
  - vm_compute; reflexivity.
Defined.

Lemma finished_run_ends_with_completion_witness :
  exists ls ms thinking content usage_payload,
    log (final_state
           (Sample.loop Sample.two_turn_script 5 (initial_state "hello")))
    = (ls ++ [AssistantEvent 2 thinking content [];
              CompletionEvent 2 content usage_payload])%list
    /\ messages (final_state
                   (Sample.loop Sample.two_turn_script 5 (initial_state "hello")))
       = (ms ++ [AssistantMessage (str_or content "") None])%list.
Proof.
  apply (finished_run_ends_with_completion Sample.json_loads
           (Sample.scripted Sample.two_turn_script)
           Sample.design_system_md Sample.component_specs_md
           Sample.code_patterns_md 5 (initial_state "hello")
           (final_state
              (Sample.loop Sample.two_turn_script 5 (initial_state "hello")))).
  vm_compute; reflexivity.
Defined.

Lemma always_tools_succeed (n : nat) (history : list history_message) :
  exists response tcs results,
    Sample.always_tools n history = Some response
    /\ msg_tool_calls (resp_message response) = Some tcs
    /\ tcs <> []
    /\ Forall2 (fun tc r => Sample.result_of tc = Ok r) tcs results.
Proof.
  eexists _, [Sample.colors_call],
    [get_design_tokens Sample.design_system_md "colors"].
  split; [reflexivity|]. split; [reflexivity|]. split; [discriminate|].
  constructor; [vm_compute; reflexivity | constructor].
Defined.

Lemma loop_has_no_turn_bound_witness :
  exists st',
    run_loop Sample.json_loads Sample.always_tools
      Sample.design_system_md Sample.component_specs_md Sample.code_patterns_md
      7 (initial_state "hello")
    = OutOfFuel st'
    /\ step st' = 7.
Proof.
  apply (loop_has_no_turn_bound Sample.json_loads Sample.always_tools
           Sample.design_system_md Sample.component_specs_md
           Sample.code_patterns_md always_tools_succeed 7 (initial_state "hello")).
Defined.

Lemma endpoint_failure_aborts_witness :
  exists st',
    Sample.loop [] 3 (initial_state "hello") = Aborted EndpointError st'
    /\ messages st' = messages (initial_state "hello")
    /\ log st' = log (initial_state "hello")
    /\ step st' = 1.
Proof.
  apply (endpoint_failure_aborts Sample.json_loads (Sample.scripted [])
           Sample.design_system_md Sample.component_specs_md
           Sample.code_patterns_md (initial_state "hello") 2).
  reflexivity.
Defined.

(** ** The console summary of a tool result *)

Lemma append_length (a b : string) :
  String.length (a ++ b) = String.length a + String.length b.
Proof. induction a as [|c a IH]; simpl; [reflexivity | now rewrite IH]. Qed.

Lemma rstrip_length (s : string) :
  String.length (Py.rstrip s) <= String.length s.
Proof.
  induction s as [|c s IH]; simpl; [lia|].
  destruct (Py.rstrip s) as [|c' r]; simpl in *.
  - destruct (Py.isspace c); simpl; lia.
  - lia.
Qed.

Lemma take_all (n : nat) (s : string) :
  String.length s <= n -> Py.take n s = s.
Proof.
  revert n; induction s as [|c s IH]; intros [|n] H; simpl in *;
    try reflexivity; try lia.
  rewrite IH; [reflexivity | lia].
Qed.

(** X16.  The summary of a tool result starts with the name of the tool
    and a colon, has at most [max_chars] characters of the payload and
    the four of the ellipsis after them, and is the payload without its
    trailing white space when the payload has at most [max_chars]
    characters. *)
Theorem summarize_tool_result_bounded (tool payload : string) (max_chars : nat) :
  String.prefix (tool ++ ": ") (summarize_tool_result tool payload max_chars)
  = true
  /\ String.length (summarize_tool_result tool payload max_chars)
     <= String.length tool + 2 + max_chars + 4
  /\ (String.length payload <= max_chars ->
      summarize_tool_result tool payload max_chars
      = tool ++ ": " ++ Py.rstrip payload).
Proof.
  unfold summarize_tool_result. split; [|split].
  - rewrite <- append_assoc. apply prefix_append.
  - pose proof (rstrip_length (Py.take max_chars payload)) as Hr.
    pose proof (take_length max_chars payload) as Ht.
    rewrite !append_length.
    destruct (max_chars <? String.length payload);
      rewrite ?append_length; simpl; lia.
  - intros Hshort. rewrite (take_all _ _ Hshort).
    destruct (Nat.ltb_spec max_chars (String.length payload)); [lia | reflexivity].
Qed.

Lemma summarize_tool_result_bounded_witness :
  summarize_tool_result "get_design_tokens" ("{}  " ++ newline) 220
  = "get_design_tokens" ++ ": " ++ Py.rstrip ("{}  " ++ newline).
Proof.
  apply (proj2 (proj2 (summarize_tool_result_bounded "get_design_tokens"
                         ("{}  " ++ newline) 220))).
  cbn. lia.
Defined.

(** ** Costs of counts that are not negative *)

Lemma float_of_int_nonnegative (z : Z) (f : float) :
  (0 <= z)%Z -> float_of_int z = Ok f -> sign_bit f = Some false.
Proof.
  intros Hz. unfold float_of_int.
  assert (Hs : sign_bit (binary_normalize prec emax z 0 false) = Some false).
  { destruct z as [|m|m]; [reflexivity| |lia].
    unfold binary_normalize, binary_round.
    destruct (shl_align m 0 _) as [mz ez].
    apply binary_round_aux_sign. lia. }
  destruct (binary_normalize prec emax z 0 false); intros H;
    try discriminate; injection H as <-; exact Hs.
Qed.

Lemma SFmul_nonnegative (f : float) (m : positive) (e : Z) :
  sign_bit f = Some false ->
  sign_bit (SFmul prec emax f (S754_finite false m e)) = Some false.
Proof.
  destruct f as [s|s| |s mf ef]; simpl; intros H; try discriminate;
    injection H as ->; try reflexivity.
  apply binary_round_aux_sign. lia.
Qed.

Lemma SFadd_nonnegative (x y : float) :
  sign_bit x = Some false ->
  sign_bit y = Some false ->
  sign_bit (SFadd prec emax x y) = Some false.
Proof.
  destruct x as [sx|sx| |sx mx ex]; destruct y as [sy|sy| |sy my ey];
    simpl; intros Hx Hy; try discriminate;
    injection Hx as ->; injection Hy as ->; try reflexivity.
  unfold binary_normalize, cond_Zopp.
  destruct (shl_align mx ex (Z.min ex ey)) as [mx' ex'].
  destruct (shl_align my ey (Z.min ex ey)) as [my' ey'].
  cbn [fst Z.add]. unfold binary_round.
  destruct (shl_align (mx' + my') (Z.min ex ey) _) as [mz ez].
  apply binary_round_aux_sign. lia.
Qed.

(** X17.  For counts that are not negative, the three costs that
    [calc_cost] returns are not negative and are numbers: their sign bit
    is clear. *)
Theorem calc_cost_nonnegative (prompt_tokens completion_tokens : Z)
  (input_cost output_cost total_cost : float) :
  (0 <= prompt_tokens)%Z ->
  (0 <= completion_tokens)%Z ->
  calc_cost prompt_tokens completion_tokens
  = Ok (input_cost, output_cost, total_cost) ->
  sign_bit input_cost = Some false
  /\ sign_bit output_cost = Some false
  /\ sign_bit total_cost = Some false.
Proof.
  intros Hp Hc. unfold calc_cost.
  destruct (float_of_int prompt_tokens) as [p|e] eqn:Ep; [|discriminate].
  destruct (float_of_int completion_tokens) as [c|e] eqn:Ec; [|discriminate].
  intros H; injection H as <- <- <-.
  assert (Hi : sign_bit (SFmul prec emax p COST_PER_INPUT_TOKEN) = Some false).
  { rewrite COST_PER_INPUT_TOKEN_value. apply SFmul_nonnegative.
    exact (float_of_int_nonnegative _ _ Hp Ep). }
  assert (Ho : sign_bit (SFmul prec emax c COST_PER_OUTPUT_TOKEN) = Some false).
  { rewrite COST_PER_OUTPUT_TOKEN_value. apply SFmul_nonnegative.
    exact (float_of_int_nonnegative _ _ Hc Ec). }
  split; [exact Hi|]. split; [exact Ho|]. now apply SFadd_nonnegative.
Qed.

Lemma calc_cost_nonnegative_witness :
  sign_bit (S754_finite false 6640827866535438 (-64)) = Some false
  /\ sign_bit (S754_finite false 6640827866535438 (-64)) = Some false
  /\ sign_bit (S754_finite false 6640827866535438 (-63)) = Some false.
Proof.
  apply (calc_cost_nonnegative 1200 300
           (S754_finite false 6640827866535438 (-64))
           (S754_finite false 6640827866535438 (-64))
           (S754_finite false 6640827866535438 (-63))).
  - lia.
  - lia.
  - vm_compute; reflexivity.
Defined.

(** ** The tool specifications and the registry *)

(** X18.  The specifications sent to the endpoint and the registry
    agree: they name the same tools in the same order, and a call that
    gives the one required parameter of a specification as a string
    reaches the tool, so that it raises neither [TypeError] nor
    [AttributeError]. *)
Theorem tools_spec_matches_registry
  (design_system_md component_specs_md code_patterns_md : string) :
  let registry :=
    TOOL_REGISTRY design_system_md component_specs_md code_patterns_md in
  map spec_name build_tools_spec = map Some (Dict.keys registry)
  /\ forall spec name param value,
       In spec build_tools_spec ->
       spec_name spec = Some name ->
       spec_required spec = Some [JStr param] ->
       exists handler,
         Dict.get name registry = Some handler
         /\ handler (JObj [(param, JStr value)]) <> Raise TypeError
         /\ handler (JObj [(param, JStr value)]) <> Raise AttributeError.
Proof.
  cbv zeta. split; [reflexivity|].
  intros spec name param value Hin Hname Hreq.
  destruct Hin as [<-|[<-|[<-|[]]]];
    injection Hname as <-; injection Hreq as <-;
    eexists; (split; [reflexivity|]); cbn; try (split; discriminate).
  split; intros H; apply get_component_spec_raises in H; discriminate H.
Qed.

Lemma tools_spec_matches_registry_witness :
  exists handler,
    Dict.get "get_design_tokens"
      (TOOL_REGISTRY Sample.design_system_md Sample.component_specs_md
         Sample.code_patterns_md)
    = Some handler
    /\ handler (JObj [("category", JStr "colors")]) <> Raise TypeError
    /\ handler (JObj [("category", JStr "colors")]) <> Raise AttributeError.
Proof.
  apply (proj2 (tools_spec_matches_registry Sample.design_system_md
                  Sample.component_specs_md Sample.code_patterns_md)
           (nth 0 build_tools_spec JNull) "get_design_tokens" "category"
           "colors").
  - left; reflexivity.
  - reflexivity.
  - reflexivity.
Defined.

(** ** The transcript file, line by line *)

Lemma printable_append (a b : string) :
  printable (a ++ b) = printable a && printable b.
Proof.
  induction a as [|c a IH]; simpl; [reflexivity|].
  rewrite IH. now rewrite andb_assoc.
Qed.

Lemma printable_join (sep : string) (l : list string) :
  printable sep = true ->
  forallb printable l = true ->
  printable (Py.join sep l) = true.
Proof.
  intros Hsep. unfold Py.join.
  induction l as [|x l IH]; [reflexivity|].
  cbn [forallb]. intros H. apply andb_true_iff in H. destruct H as (Hx & Hl).
  destruct l as [|y l]; [exact Hx|].
  change (String.concat sep (x :: y :: l))
    with (x ++ sep ++ String.concat sep (y :: l)).
  rewrite !printable_append, Hx, Hsep. now apply IH.
Qed.

Lemma escape_char_printable (c : ascii) :
  printable (Json.escape_char c) = true.
Proof.
  destruct c as [[|] [|] [|] [|] [|] [|] [|] [|]]; reflexivity.
Qed.

Lemma escape_printable (s : string) : printable (Json.escape s) = true.
Proof.
  induction s as [|c s IH]; [reflexivity|]. cbn [Json.escape].
  now rewrite printable_append, escape_char_printable, IH.
Qed.

Lemma dumps_str_printable (s : string) : printable (Json.dumps_str s) = true.
Proof.
  unfold Json.dumps_str.
  change (String Py.dquote (Json.escape s ++ String Py.dquote ""))
    with (String Py.dquote "" ++ Json.escape s ++ String Py.dquote "").
  now rewrite !printable_append, escape_printable.
Qed.

(** What [json.dumps] writes is printable text. *)
Lemma dumps_printable :
  forall v, clean v = true -> printable (Json.dumps v) = true.
Proof.
  fix IH 1. intros [|b|lexeme|s|items|members] Hclean; cbn [Json.dumps].
  - reflexivity.
  - destruct b; reflexivity.
  - exact Hclean.
  - apply dumps_str_printable.
  - rewrite !printable_append. cbn [clean] in Hclean.
    rewrite printable_join; [reflexivity | reflexivity |].
    induction items as [|x items IHitems]; [reflexivity|].
    cbn [forallb map] in *.
    apply andb_true_iff in Hclean. destruct Hclean as (Hx & Hrest).
    rewrite (IH x Hx). now apply IHitems.
  - rewrite !printable_append. cbn [clean] in Hclean.
    rewrite printable_join; [reflexivity | reflexivity |].
    induction members as [|[k x] members IHmembers]; [reflexivity|].
    cbn [forallb map fst snd] in *.
    apply andb_true_iff in Hclean. destruct Hclean as (Hx & Hrest).
    rewrite !printable_append, dumps_str_printable, (IH x Hx).
    now apply IHmembers.
Qed.

Lemma decimal_printable (n : nat) : printable (decimal n) = true.
Proof.
  unfold decimal. generalize (Nat.to_uint n) as d.
  induction d; simpl; try reflexivity; assumption.
Qed.

Lemma printable_line (s rest : string) :
  printable s = true ->
  Py.splitlines (s ++ newline ++ rest) = s :: Py.splitlines rest.
Proof.
  induction s as [|c s IH]; intros Hs.
  - cbn. now destruct rest.
  - cbn [printable] in Hs.
    apply andb_true_iff in Hs. destruct Hs as (Hc & Hs).
    apply andb_true_iff in Hc. destruct Hc as (Hlo & Hhi).
    apply Nat.leb_le in Hlo, Hhi.
    change ((String c s ++ newline ++ rest))
      with (String c (s ++ newline ++ rest)).
    cbn [Py.splitlines].
    assert (Hbreak : Py.is_linebreak c = false).
    { unfold Py.is_linebreak.
      destruct (Nat.leb_spec 10 (Py.code c)), (Nat.leb_spec (Py.code c) 13),
        (Nat.leb_spec 28 (Py.code c)), (Nat.leb_spec (Py.code c) 30),
        (Nat.eqb_spec (Py.code c) 133); simpl; try reflexivity; lia. }
    rewrite Hbreak, (IH Hs). reflexivity.
Qed.

Section TranscriptProperties.

Variable dump_tool_call : tool_call -> json.
Variable dump_usage : usage -> json.

Hypothesis dump_tool_call_clean : forall tc, clean (dump_tool_call tc) = true.
Hypothesis dump_usage_clean : forall u, clean (dump_usage u) = true.

Lemma event_json_clean (e : event) :
  clean (event_json dump_tool_call dump_usage e) = true.
Proof.
  destruct e as [n thinking content tcs|n tool result|n content u];
    cbn [event_json clean forallb snd]; rewrite decimal_printable; cbn [andb].
  - destruct content; cbn [optional_str clean]; cbn [andb];
      rewrite andb_true_r;
      induction tcs as [|tc tcs IH]; cbn [map forallb]; try reflexivity;
      now rewrite dump_tool_call_clean.
  - reflexivity.
  - destruct content; cbn [optional_str clean]; cbn [andb];
      rewrite andb_true_r; destruct u; try reflexivity; apply dump_usage_clean.
Qed.

(** X19.  Every record that [log_event] writes is one line of the
    transcript file: read back line by line, the file gives the serialised
    records, each whole, in the order in which they were written. *)
Theorem transcript_reads_back (l : list event) :
  Py.splitlines (transcript_text dump_tool_call dump_usage l)
  = map (fun e => Json.dumps (event_json dump_tool_call dump_usage e)) l.
Proof.
  induction l as [|e l IH]; [reflexivity|].
  cbn [transcript_text map]. unfold log_line. rewrite append_assoc.
  rewrite printable_line; [now rewrite IH|].
  apply dumps_printable, event_json_clean.
Qed.

End TranscriptProperties.

Lemma transcript_reads_back_witness :
  Py.splitlines
    (transcript_text Sample.dump_tool_call Sample.dump_usage
       (log (final_state (Sample.run Sample.two_turn_script 5))))
  = map (fun e =>
           Json.dumps (event_json Sample.dump_tool_call Sample.dump_usage e))
      (log (final_state (Sample.run Sample.two_turn_script 5))).
Proof.
  apply (transcript_reads_back Sample.dump_tool_call Sample.dump_usage).
  - intros tc. reflexivity.
  - intros u. unfold Sample.dump_usage. cbn [clean forallb snd].
    now rewrite decimal_printable.
Defined.

(** ** Errors before the first request *)

(** X20.  [run_demo] checks the scenario first and the key second: a
    scenario that is not one of the two names ends the run with
    [ValueError], a known scenario without a key in either variable ends
    it with the [RuntimeError] of [load_client]; in both cases no request
    is made and nothing is written, whatever the endpoint would
    answer. *)
Theorem configuration_errors
  (json_loads : string -> option json)
  (endpoint : nat -> list history_message -> option chat_response)
  (design_system_md component_specs_md code_patterns_md : string)
  (getenv : string -> option string) (fuel : nat) (scenario : string) :
  let run :=
    run_demo json_loads endpoint design_system_md component_specs_md
      code_patterns_md getenv fuel scenario in
  (scenario <> "context_package" ->
   scenario <> "frontend_showcase" ->
   run = Aborted ValueError empty_state)
  /\ (scenario = "context_package" \/ scenario = "frontend_showcase" ->
      (getenv "MINIMAX_API_KEY" = None
       \/ getenv "MINIMAX_API_KEY" = Some "") ->
      (getenv "OPENAI_API_KEY" = None
       \/ getenv "OPENAI_API_KEY" = Some "") ->
      run
      = Aborted
          (RuntimeError
             "Missing MINIMAX_API_KEY. Copy env.example and set your key.")
          empty_state).
Proof.
  cbv zeta. unfold run_demo. split.
  - intros H1 H2. unfold SCENARIOS; cbn [Dict.get].
    destruct (String.eqb_spec "context_package" scenario) as [E|_];
      [now elim H1|].
    destruct (String.eqb_spec "frontend_showcase" scenario) as [E|_];
      [now elim H2|].
    reflexivity.
  - intros Hs Hm Ho.
    assert (Hget : exists user_prompt,
               Dict.get scenario SCENARIOS = Some user_prompt)
      by (destruct Hs as [->| ->]; eexists; reflexivity).
    destruct Hget as (user_prompt & ->).
    unfold load_client.
    destruct Hm as [-> | ->]; destruct Ho as [-> | ->]; reflexivity.
Qed.

Lemma configuration_errors_witness :
  run_demo Sample.json_loads (Sample.scripted Sample.two_turn_script)
    Sample.design_system_md Sample.component_specs_md Sample.code_patterns_md
    (fun _ => None) 5 "frontend_showcase"
  = Aborted
      (RuntimeError "Missing MINIMAX_API_KEY. Copy env.example and set your key.")
      empty_state.
Proof.
  apply (proj2 (configuration_errors Sample.json_loads
                  (Sample.scripted Sample.two_turn_script)
                  Sample.design_system_md Sample.component_specs_md
                  Sample.code_patterns_md (fun _ => None) 5 "frontend_showcase")).
  - right; reflexivity.
  - left; reflexivity.
  - left; reflexivity.
Defined.

(** ** What the tools return is printable text *)

Lemma Ok_injective {A : Type} (a b : A) : Ok a = Ok b -> a = b.
Proof. intros H. now injection H. Qed.

(** X21.  Whatever the document and the argument hold, the payload that
    a tool returns is made of printable ASCII characters only, so that it
    has no line break: [json.dumps] escapes the rest. *)
Theorem tool_payloads_printable (doc arg : string) :
  printable (get_design_tokens doc arg) = true
  /\ printable (get_pattern_guidance doc arg) = true
  /\ (forall payload,
        get_component_spec doc arg = Ok payload -> printable payload = true).
Proof.
  split; [|split].
  - unfold get_design_tokens.
    destruct (design_tokens_loop_spec (Py.lower arg) (_load_markdown_sections doc))
      as [(before & key & value & after & _ & _ & _ & ->)|(_ & ->)];
      now apply dumps_printable.
  - unfold get_pattern_guidance.
    destruct (pattern_loop_spec (Py.lower arg) (_load_markdown_sections doc))
      as [(before & key & value & after & _ & _ & _ & ->)|(_ & ->)];
      now apply dumps_printable.
  - intros payload. unfold get_component_spec.
    destruct (component_loop_spec (Py.lower (Py.strip arg)) (Py.split "## " doc))
      as [(before & after & _ & _ & ->)
         |[(? & ? & ? & ? & ? & _ & _ & _ & _ & _ & ->)|(_ & ->)]];
      [discriminate| |]; intros H; apply Ok_injective in H; subst payload;
      now apply dumps_printable.
Qed.

Lemma tool_payloads_printable_witness :
  printable (String (ascii_of_nat 233) "") = false
  /\ printable
       (get_design_tokens ("## Caf" ++ String (ascii_of_nat 233) newline ++ "x")
          "caf")
     = true.
Proof.
  split; [reflexivity|].
  apply (proj1 (tool_payloads_printable
                  ("## Caf" ++ String (ascii_of_nat 233) newline ++ "x") "caf")).
Defined.
